(** * API key verification and the live-state snapshot reader

    A shallow embedding of two packages of the control plane:

    - [pkg/app/server/apikeyverifier]: [Verify] and [checkAPIKey], which
      resolve an API key through a local cache and the datastore, validate
      it and record when it was last used;
    - [pkg/app/api/applicationlivestatestore]: the file-store backed reader
      of application live-state snapshots.

    Both packages talk to collaborators through Go interfaces
    ([cache.Cache], [apiKeyGetter], [filestore.Store]).  An interface is a
    type class here: an implementation is a type of object states with one
    state-passing function per method.  The code under verification is
    written against the classes only, so every theorem holds for every
    implementation, mocks included. *)

From Stdlib Require Import String Ascii ZArith List Bool Lia.
Import ListNotations.
Local Open Scope list_scope.
Local Open Scope string_scope.

(** ** Go values the code handles *)

(** A Go [error]: the text [Error()] returns and, for an error that wraps
    another, what [Unwrap()] returns.  A nil error is [None] of
    [option error]. *)
Inductive error : Type :=
| Plain (text : string)
| Wrapping (text : string) (cause : error).

Definition Error (e : error) : string :=
  match e with
  | Plain text => text
  | Wrapping text _ => text
  end.

Definition Unwrap (e : error) : option error :=
  match e with
  | Plain _ => None
  | Wrapping _ cause => Some cause
  end.

Module errors.

Definition New (text : string) : error := Plain text.

End errors.

(** [strings.Contains]. *)
Definition Contains (s substr : string) : Prop :=
  exists before after, s = before ++ substr ++ after.

Module fmt.

(** The operands the formatting calls of these packages pass: a string
    (for [%s]) or an error (for [%w]). *)
Inductive operand : Type :=
| Str (s : string)
| Wrap (e : error).

Definition text (a : operand) : string :=
  match a with
  | Str s => s
  | Wrap e => Error e
  end.

Definition is_verb (c : ascii) : bool :=
  (Ascii.eqb c "s" || Ascii.eqb c "v" || Ascii.eqb c "w")%bool.

(** [fmt.Sprintf] for the verbs [%s], [%v], [%w] and [%%]: each verb prints
    the next operand; a verb without operand prints Go's [%!s(MISSING)]. *)
Fixpoint Sprintf (format : string) (a : list operand) {struct format} : string :=
  match format with
  | EmptyString => EmptyString
  | String c rest =>
      if Ascii.eqb c "%" then
        match rest with
        | EmptyString => "%!(NOVERB)"
        | String v rest' =>
            if is_verb v then
              match a with
              | x :: a' => text x ++ Sprintf rest' a'
              | [] => "%!" ++ String v "(MISSING)" ++ Sprintf rest' []
              end
            else if Ascii.eqb v "%" then String "%" (Sprintf rest' a)
            else String c (Sprintf rest a)
        end
      else String c (Sprintf rest a)
  end.

(** The operand of the first [%w] verb, which [fmt.Errorf] makes the
    result's [Unwrap()]. *)
Fixpoint wrapped (format : string) (a : list operand) {struct format} : option error :=
  match format with
  | EmptyString => None
  | String c rest =>
      if Ascii.eqb c "%" then
        match rest with
        | EmptyString => None
        | String v rest' =>
            if is_verb v then
              match a with
              | Wrap e :: a' => if Ascii.eqb v "w" then Some e else wrapped rest' a'
              | _ :: a' => wrapped rest' a'
              | [] => None
              end
            else if Ascii.eqb v "%" then wrapped rest' a
            else wrapped rest a
        end
      else wrapped rest a
  end.

Definition Errorf (format : string) (a : list operand) : error :=
  match wrapped format a with
  | Some cause => Wrapping (Sprintf format a) cause
  | None => Plain (Sprintf format a)
  end.

End fmt.

(** A Go [interface{}] value, as far as these packages box values: the nil
    interface, a [*model.APIKey] (a pointer, [None] when nil) and an
    [int64]. *)
Inductive any (APIKey : Type) : Type :=
| Nil
| PtrAPIKey (p : option APIKey)
| Int64 (n : Z).

Arguments Nil {APIKey}.
Arguments PtrAPIKey {APIKey} p.
Arguments Int64 {APIKey} n.

(** ** The collaborators *)

Module model.

(** What the verifier uses of package [model], whose source is not part of
    this development: the key record with its [Disabled] field and its
    [CompareKey] method, and [ExtractAPIKeyID]. *)
Class Package (APIKey : Type) : Type := {
  Disabled : APIKey -> bool;
  CompareKey : APIKey -> string -> option error;
  ExtractAPIKeyID : string -> string * option error;
}.

End model.

Module cache.

(** The two methods of [cache.Cache] the verifier calls, on an object whose
    state has type [T].  A method returns its Go results and the object's
    next state. *)
Class Cache (APIKey T : Type) : Type := {
  Get : string -> T -> (any APIKey * option error) * T;
  Put : string -> any APIKey -> T -> option error * T;
}.

(** A cache that shows a value it accepted: after a [Put] that returned
    nil, [Get] of that key returns the value. *)
Class PutThenGet (APIKey T : Type) `{Cache APIKey T} : Prop :=
  put_then_get : forall key value t t',
    Put key value t = (None, t') -> fst (Get key t') = (value, None).

End cache.

Module zap.

Inductive Level : Type := DebugLevel | InfoLevel | WarnLevel | ErrorLevel.

Inductive Field : Type :=
| Error (err : error).

Record Entry : Type := {
  EntryLevel : Level;
  Message : string;
  Fields : list Field;
}.

(** The logger is the sink itself: the entries written so far, oldest
    first. *)
Definition Logger : Type := list Entry.

Definition Warn (msg : string) (fields : list Field) (l : Logger) : Logger :=
  (l ++ [{| EntryLevel := WarnLevel; Message := msg; Fields := fields |}])%list.

End zap.

Module time.

(** The wall clock: [Unix] is what [time.Now().Unix()] reads, [elapse] is
    the time a call to a collaborator takes. *)
Class Clock (K : Type) : Type := {
  Unix : K -> Z;
  elapse : K -> K;
}.

(** A clock that is never set back. *)
Class Monotone (K : Type) `{Clock K} : Prop :=
  unix_elapse : forall k, (Unix k <= Unix (elapse k))%Z.

End time.

(** ** Package apikeyverifier *)

Module apikeyverifier.

(** The interface [apiKeyGetter] of the datastore; [Ctx] is
    [context.Context]. *)
Class apiKeyGetter (APIKey Ctx T : Type) : Type := {
  Get : Ctx -> string -> T -> (option APIKey * option error) * T;
  UpdateLastUsedAt : Ctx -> string -> string -> T -> option error * T;
}.

Section Verifier.

Context {APIKey Ctx C S D K : Type}.
Context {pkg : model.Package APIKey}.
Context {localCache : cache.Cache APIKey C}.
Context {getter : apiKeyGetter APIKey Ctx S}.
Context {hashCache : cache.Cache APIKey D}.
Context {wallClock : time.Clock K}.

(** The struct [Verifier]: each field holds the state of the object the Go
    field refers to. *)
Record Verifier : Type := {
  apiKeyCache : C;
  apiKeyStore : S;
  apiKeyLastUsedCache : D;
  logger : zap.Logger;
}.

(** What a call can change: the verifier's collaborators and the clock. *)
Record World : Type := {
  verifier : Verifier;
  clock : K;
}.

(** A call to a collaborator as a mock records it: the method, its
    arguments and what it returned. *)
Inductive Call : Type :=
| CacheGet (key : string) (item : any APIKey) (err : option error)
| StoreGet (id : string) (apiKey : option APIKey) (err : option error)
| CachePut (key : string) (value : any APIKey) (err : option error)
| KeyCompare (apiKey : APIKey) (key : string) (err : option error)
| LastUsedPut (key : string) (value : any APIKey) (err : option error).

(** A Go function either returns or panics. *)
Inductive outcome (A : Type) : Type :=
| Returned (a : A)
| Panicked (why : string).

Arguments Returned {A} a.
Arguments Panicked {A} why.

(** A run of a piece of code from a world: how it ended, the calls it made
    in order, and the world it left. *)
Record Run (A : Type) : Type := {
  result : outcome A;
  calls : list Call;
  world : World;
}.

Arguments result {A} r.
Arguments calls {A} r.
Arguments world {A} r.

Definition M (A : Type) : Type := World -> Run A.

Definition ret {A : Type} (a : A) : M A :=
  fun w => {| result := Returned a; calls := []; world := w |}.

Definition panic {A : Type} (why : string) : M A :=
  fun w => {| result := Panicked why; calls := []; world := w |}.

Definition bind {A B : Type} (m : M A) (f : A -> M B) : M B :=
  fun w =>
    match m w with
    | {| result := Returned a; calls := cs; world := w1 |} =>
        match f a w1 with
        | {| result := res; calls := cs'; world := w2 |} =>
            {| result := res; calls := (cs ++ cs')%list; world := w2 |}
        end
    | {| result := Panicked why; calls := cs; world := w1 |} =>
        {| result := Panicked why; calls := cs; world := w1 |}
    end.

Notation "x <- m ;; k" := (bind m (fun x => k))
  (at level 61, m at next level, right associativity).
Notation "m ;; k" := (bind m (fun _ => k))
  (at level 61, right associativity).

(** *** The verifier's calls to its collaborators

    Each one runs the method on the field's object, stores the object's
    next state back, records the call and lets the clock run. *)

Definition with_apiKeyCache (c : C) (w : World) : World :=
  {| verifier := {| apiKeyCache := c;
                    apiKeyStore := apiKeyStore (verifier w);
                    apiKeyLastUsedCache := apiKeyLastUsedCache (verifier w);
                    logger := logger (verifier w) |};
     clock := time.elapse (clock w) |}.

Definition with_apiKeyStore (s : S) (w : World) : World :=
  {| verifier := {| apiKeyCache := apiKeyCache (verifier w);
                    apiKeyStore := s;
                    apiKeyLastUsedCache := apiKeyLastUsedCache (verifier w);
                    logger := logger (verifier w) |};
     clock := time.elapse (clock w) |}.

Definition with_apiKeyLastUsedCache (d : D) (w : World) : World :=
  {| verifier := {| apiKeyCache := apiKeyCache (verifier w);
                    apiKeyStore := apiKeyStore (verifier w);
                    apiKeyLastUsedCache := d;
                    logger := logger (verifier w) |};
     clock := time.elapse (clock w) |}.

Definition with_logger (l : zap.Logger) (w : World) : World :=
  {| verifier := {| apiKeyCache := apiKeyCache (verifier w);
                    apiKeyStore := apiKeyStore (verifier w);
                    apiKeyLastUsedCache := apiKeyLastUsedCache (verifier w);
                    logger := l |};
     clock := time.elapse (clock w) |}.

(** [v.apiKeyCache.Get(key)] *)
Definition apiKeyCache_Get (key : string) : M (any APIKey * option error) :=
  fun w =>
    let out := cache.Get key (apiKeyCache (verifier w)) in
    {| result := Returned (fst out);
       calls := [CacheGet key (fst (fst out)) (snd (fst out))];
       world := with_apiKeyCache (snd out) w |}.

(** [v.apiKeyCache.Put(key, value)] *)
Definition apiKeyCache_Put (key : string) (value : any APIKey) : M (option error) :=
  fun w =>
    let out := cache.Put key value (apiKeyCache (verifier w)) in
    {| result := Returned (fst out);
       calls := [CachePut key value (fst out)];
       world := with_apiKeyCache (snd out) w |}.

(** [v.apiKeyStore.Get(ctx, id)] *)
Definition apiKeyStore_Get (ctx : Ctx) (id : string) : M (option APIKey * option error) :=
  fun w =>
    let out := Get ctx id (apiKeyStore (verifier w)) in
    {| result := Returned (fst out);
       calls := [StoreGet id (fst (fst out)) (snd (fst out))];
       world := with_apiKeyStore (snd out) w |}.

(** [v.apiKeyLastUsedCache.Put(key, value)] *)
Definition apiKeyLastUsedCache_Put (key : string) (value : any APIKey) : M (option error) :=
  fun w =>
    let out := cache.Put key value (apiKeyLastUsedCache (verifier w)) in
    {| result := Returned (fst out);
       calls := [LastUsedPut key value (fst out)];
       world := with_apiKeyLastUsedCache (snd out) w |}.

(** [v.logger.Warn(msg, fields...)] *)
Definition logger_Warn (msg : string) (fields : list zap.Field) : M unit :=
  fun w =>
    {| result := Returned tt;
       calls := [];
       world := with_logger (zap.Warn msg fields (logger (verifier w))) w |}.

(** [apiKey.CompareKey(key)] *)
Definition apiKey_CompareKey (apiKey : APIKey) (key : string) : M (option error) :=
  fun w =>
    let err := model.CompareKey apiKey key in
    {| result := Returned err;
       calls := [KeyCompare apiKey key err];
       world := {| verifier := verifier w; clock := time.elapse (clock w) |} |}.

(** [time.Now().Unix()] *)
Definition time_Now_Unix : M Z :=
  fun w => {| result := Returned (time.Unix (clock w)); calls := []; world := w |}.

(** The type assertion of the cached item to a pointer to [model.APIKey],
    which panics on an item of another dynamic type. *)
Definition assert_APIKey (item : any APIKey) : M (option APIKey) :=
  match item with
  | PtrAPIKey p => ret p
  | Nil => panic "interface conversion: interface is nil, not *model.APIKey"
  | Int64 _ => panic "interface conversion: interface {} is int64, not *model.APIKey"
  end.

(** Reading a field through a [*model.APIKey], which panics on nil. *)
Definition deref (p : option APIKey) : M APIKey :=
  match p with
  | Some k => ret k
  | None => panic "invalid memory address or nil pointer dereference"
  end.

(** *** The source functions *)

Definition checkAPIKey (ctx : Ctx) (apiKey : option APIKey) (id key : string)
  : M (option error) :=
  k <- deref apiKey ;;
  if model.Disabled k then
    ret (Some (fmt.Errorf "the api key %s was already disabled" [fmt.Str id]))
  else
    err <- apiKey_CompareKey k key ;;
    match err with
    | Some err =>
        ret (Some (fmt.Errorf "invalid api key %s: %w" [fmt.Str id; fmt.Wrap err]))
    | None =>
        now <- time_Now_Unix ;;
        err <- apiKeyLastUsedCache_Put id (Int64 now) ;;
        match err with
        | Some err =>
            ret (Some (fmt.Errorf
                         "unable to update the time API key %s was last used, %w"
                         [fmt.Str id; fmt.Wrap err]))
        | None => ret None
        end
    end.

Definition Verify (ctx : Ctx) (key : string) : M (option APIKey * option error) :=
  let keyID := fst (model.ExtractAPIKeyID key) in
  match snd (model.ExtractAPIKeyID key) with
  | Some err => ret (None, Some err)
  | None =>
      got <- apiKeyCache_Get keyID ;;
      match snd got with
      | None =>
          apiKey <- assert_APIKey (fst got) ;;
          err <- checkAPIKey ctx apiKey keyID key ;;
          match err with
          | Some err => ret (None, Some err)
          | None => ret (apiKey, None)
          end
      | Some _ =>
          fetched <- apiKeyStore_Get ctx keyID ;;
          match snd fetched with
          | Some err =>
              ret (None,
                   Some (fmt.Errorf "unable to find API key %s from datastore, %w"
                                    [fmt.Str keyID; fmt.Wrap err]))
          | None =>
              let apiKey := fst fetched in
              err <- apiKeyCache_Put keyID (PtrAPIKey apiKey) ;;
              match err with
              | Some err =>
                  logger_Warn "unable to store API key in memory cache" [zap.Error err]
              | None => ret tt
              end ;;
              err <- checkAPIKey ctx apiKey keyID key ;;
              match err with
              | Some err => ret (None, Some err)
              | None => ret (apiKey, None)
              end
          end
      end
  end.

End Verifier.

Arguments Verifier : clear implicits.
Arguments World : clear implicits.
Arguments Call : clear implicits.
Arguments Run : clear implicits.
Arguments M : clear implicits.
Arguments Returned {A} a.
Arguments Panicked {A} why.
Arguments result {APIKey C S D K A} r.
Arguments calls {APIKey C S D K A} r.
Arguments world {APIKey C S D K A} r.

End apikeyverifier.

(** ** Package applicationlivestatestore *)

Module filestore.

(** The interface [filestore.Store], as far as the reader calls it, on an
    object whose state has type [T]; [Object] is [filestore.Object] with
    its field [Content]. *)
Class Store (Ctx Object T : Type) : Type := {
  Content : Object -> list Byte.byte;
  GetObject : Ctx -> string -> T -> (Object * option error) * T;
}.

End filestore.

Module json.

(** [json.Unmarshal(data, &s)] for a target of type [A]: the target as the
    decoder leaves it, and the error. *)
Class Unmarshaler (A : Type) : Type := {
  zero : A;
  Unmarshal : list Byte.byte -> A -> A * option error;
}.

End json.

Module applicationlivestatestore.

Section FileStore.

Context {Ctx Object T Snapshot : Type}.
Context {store : filestore.Store Ctx Object T}.
Context {decoder : json.Unmarshaler Snapshot}.

Record applicationLiveStateFileStore : Type := {
  backend : T;
}.

(** A call to the backend, as a mock records it. *)
Inductive BackendCall : Type :=
| GetObjectCall (path : string).

(** A run of a method: its Go results, the calls made to the backend, and
    the store afterwards. *)
Record Ran (A : Type) : Type := {
  results : A;
  backend_calls : list BackendCall;
  after : applicationLiveStateFileStore;
}.

Arguments results {A} r.
Arguments backend_calls {A} r.
Arguments after {A} r.

Definition applicationLiveStatePath (applicationID : string) : string :=
  fmt.Sprintf "application-live-state/%s.json" [fmt.Str applicationID].

Definition Get (ctx : Ctx) (applicationID : string) (f : applicationLiveStateFileStore)
  : Ran (option Snapshot * option error) :=
  let path := applicationLiveStatePath applicationID in
  let got := filestore.GetObject ctx path (backend f) in
  let obj := fst (fst got) in
  {| results :=
       match snd (fst got) with
       | Some err => (None, Some err)
       | None =>
           let decoded := json.Unmarshal (filestore.Content obj) json.zero in
           match snd decoded with
           | Some err => (None, Some err)
           | None => (Some (fst decoded), None)
           end
       end;
     backend_calls := [GetObjectCall path];
     after := {| backend := snd got |} |}.

Definition Put (ctx : Ctx) (applicationID : string) (alss : option Snapshot)
    (f : applicationLiveStateFileStore) : Ran (option error) :=
  {| results := Some (errors.New "unimplemented");
     backend_calls := [];
     after := f |}.

End FileStore.

Arguments applicationLiveStateFileStore : clear implicits.
Arguments results {T A} r.
Arguments backend_calls {T A} r.
Arguments after {T A} r.

End applicationlivestatestore.

(** ** Test doubles

    Small implementations of the collaborators, with injectable failures,
    on which the theorems below are run at concrete inputs. *)

Module fake.

(** A key record: the raw key of record [k] is [Id k ++ "." ++ Secret k]. *)
Record APIKey : Type := {
  Id : string;
  ProjectId : string;
  Secret : string;
  Off : bool;
}.

(** The text before the first dot of [s], when [s] has a dot. *)
Fixpoint before_dot (s : string) : option string :=
  match s with
  | EmptyString => None
  | String c rest =>
      if Ascii.eqb c "." then Some EmptyString
      else option_map (String c) (before_dot rest)
  end.

Definition extract (key : string) : string * option error :=
  match before_dot key with
  | Some EmptyString | None => (EmptyString, Some (errors.New "malformed api key"))
  | Some id => (id, None)
  end.

Definition compare (k : APIKey) (key : string) : option error :=
  if String.eqb key (Id k ++ "." ++ Secret k) then None
  else Some (errors.New "wrong api key").

#[global] Instance package : model.Package APIKey := {|
  model.Disabled := Off;
  model.CompareKey := compare;
  model.ExtractAPIKeyID := extract;
|}.

Fixpoint lookup {V : Type} (key : string) (rows : list (string * V)) : option V :=
  match rows with
  | [] => None
  | (k, v) :: rest => if String.eqb key k then Some v else lookup key rest
  end.

(** An in-memory cache whose reads and writes can be made to fail. *)
Record Table : Type := {
  rows : list (string * any APIKey);
  get_err : option error;
  put_err : option error;
}.

Definition table_get (key : string) (t : Table) : (any APIKey * option error) * Table :=
  match get_err t with
  | Some e => ((Nil, Some e), t)
  | None =>
      match lookup key (rows t) with
      | Some v => ((v, None), t)
      | None => ((Nil, Some (errors.New "not found")), t)
      end
  end.

Definition table_put (key : string) (value : any APIKey) (t : Table) : option error * Table :=
  match put_err t with
  | Some e => (Some e, t)
  | None =>
      (None, {| rows := (key, value) :: rows t; get_err := get_err t; put_err := None |})
  end.

#[global] Instance table : cache.Cache APIKey Table := {|
  cache.Get := table_get;
  cache.Put := table_put;
|}.

(** A hash of a shared cache server whose writes can be made to fail. *)
Record Hash : Type := {
  fields : list (string * any APIKey);
  hset_err : option error;
}.

Definition hash_get (key : string) (h : Hash) : (any APIKey * option error) * Hash :=
  match lookup key (fields h) with
  | Some v => ((v, None), h)
  | None => ((Nil, Some (errors.New "not found")), h)
  end.

Definition hash_put (key : string) (value : any APIKey) (h : Hash) : option error * Hash :=
  match hset_err h with
  | Some e => (Some e, h)
  | None => (None, {| fields := (key, value) :: fields h; hset_err := None |})
  end.

#[global] Instance hash : cache.Cache APIKey Hash := {|
  cache.Get := hash_get;
  cache.Put := hash_put;
|}.

(** A datastore holding a list of records. *)
Definition Datastore : Type := list APIKey.

Definition datastore_get (ctx : unit) (id : string) (s : Datastore)
  : (option APIKey * option error) * Datastore :=
  match find (fun k => String.eqb id (Id k)) s with
  | Some k => ((Some k, None), s)
  | None => ((None, Some (errors.New "not found")), s)
  end.

#[global] Instance datastore : apikeyverifier.apiKeyGetter APIKey unit Datastore := {|
  apikeyverifier.Get := datastore_get;
  apikeyverifier.UpdateLastUsedAt := fun _ _ _ s => (None, s);
|}.

(** A clock that shows a number of seconds and moves one second per call. *)
#[global] Instance seconds : time.Clock Z := {|
  time.Unix := fun k => k;
  time.elapse := Z.succ;
|}.

Definition World : Type := apikeyverifier.World Table Datastore Hash Z.

Definition k1 : APIKey :=
  {| Id := "k1"; ProjectId := "p1"; Secret := "s3cr3t"; Off := false |}.

Definition k1_disabled : APIKey :=
  {| Id := "k1"; ProjectId := "p1"; Secret := "s3cr3t"; Off := true |}.

Definition empty_table : Table :=
  {| rows := []; get_err := None; put_err := None |}.

Definition empty_hash : Hash :=
  {| fields := []; hset_err := None |}.

(** A verifier with cache [c], datastore [s] and last-used hash [h], at
    time 1000, with nothing logged yet. *)
Definition at_1000 (c : Table) (s : Datastore) (h : Hash) : World :=
  {| apikeyverifier.verifier :=
       {| apikeyverifier.apiKeyCache := c;
          apikeyverifier.apiKeyStore := s;
          apikeyverifier.apiKeyLastUsedCache := h;
          apikeyverifier.logger := [] |};
     apikeyverifier.clock := 1000%Z |}.

(** Nothing cached, the datastore has [k1]. *)
Definition cold : World := at_1000 empty_table [k1] empty_hash.

(** [k1] is cached. *)
Definition warm : World :=
  at_1000 {| rows := [("k1", PtrAPIKey (Some k1))]; get_err := None; put_err := None |}
          [k1] empty_hash.

(** Nothing cached, the datastore has the disabled [k1]. *)
Definition cold_disabled : World := at_1000 empty_table [k1_disabled] empty_hash.

(** Nothing cached and the datastore is empty. *)
Definition cold_unknown : World := at_1000 empty_table [] empty_hash.

(** The local cache rejects writes. *)
Definition readonly_table : Table :=
  {| rows := []; get_err := None; put_err := Some (errors.New "cache is full") |}.

Definition cold_readonly : World := at_1000 readonly_table [k1] empty_hash.

(** The last-used hash rejects writes. *)
Definition broken_hash : Hash :=
  {| fields := []; hset_err := Some (errors.New "connection refused") |}.

Definition cold_broken_hash : World := at_1000 empty_table [k1] broken_hash.

Definition cold_readonly_broken_hash : World := at_1000 readonly_table [k1] broken_hash.

(** The local cache fails to read, with an error that is no miss. *)
Definition unreadable_table : Table :=
  {| rows := [("k1", PtrAPIKey (Some k1))];
     get_err := Some (errors.New "i/o timeout");
     put_err := None |}.

Definition cold_unreadable : World := at_1000 unreadable_table [k1] empty_hash.

End fake.


(** ** The vocabulary of the specification *)

Import apikeyverifier.

(** The kinds of failure of a verification, as the error [Verify] returns
    for each.  MalformedKey is whatever error [model.ExtractAPIKeyID]
    returned, passed on as it is. *)

Definition ErrNotFound (id : string) (cause : error) : error :=
  fmt.Errorf "unable to find API key %s from datastore, %w" [fmt.Str id; fmt.Wrap cause].

Definition ErrDisabled (id : string) : error :=
  fmt.Errorf "the api key %s was already disabled" [fmt.Str id].

Definition ErrInvalidSecret (id : string) (cause : error) : error :=
  fmt.Errorf "invalid api key %s: %w" [fmt.Str id; fmt.Wrap cause].

Definition ErrLastUsedWrite (id : string) (cause : error) : error :=
  fmt.Errorf "unable to update the time API key %s was last used, %w"
             [fmt.Str id; fmt.Wrap cause].

Section Vocabulary.

Context {APIKey Ctx C S D K : Type}.
Context {pkg : model.Package APIKey}.
Context {localCache : cache.Cache APIKey C}.
Context {getter : apiKeyGetter APIKey Ctx S}.
Context {hashCache : cache.Cache APIKey D}.
Context {wallClock : time.Clock K}.

(** The identifier [id] resolves to the record [r]: the local cache has
    it, or the local cache's [Get] returns an error and the datastore has
    it. *)
Inductive resolves (ctx : Ctx) (v : Verifier C S D) (id : string) (r : APIKey) : Prop :=
| cached :
    fst (cache.Get id (apiKeyCache v)) = (PtrAPIKey (Some r), None) ->
    resolves ctx v id r
| fetched (item : any APIKey) (e : error) :
    fst (cache.Get id (apiKeyCache v)) = (item, Some e) ->
    fst (Get ctx id (apiKeyStore v)) = (Some r, None) ->
    resolves ctx v id r.

(** Calls on the distributed last-used cache, and calls that compare the
    secret. *)
Definition is_LastUsedPut (c : Call APIKey) : bool :=
  match c with
  | LastUsedPut _ _ _ => true
  | _ => false
  end.

Definition is_KeyCompare (c : Call APIKey) : bool :=
  match c with
  | KeyCompare _ _ _ => true
  | _ => false
  end.

(** The last-used cache was written during the calls [cs]. *)
Definition written (cs : list (Call APIKey)) : Prop :=
  existsb is_LastUsedPut cs = true.

(** What [Verify] makes of the run [r] of [checkAPIKey] on the pointer
    [p], after the calls [before]. *)
Definition concluded (before : list (Call APIKey)) (p : option APIKey)
    (r : Run APIKey C S D K (option error))
  : Run APIKey C S D K (option APIKey * option error) :=
  {| result :=
       match result r with
       | Returned (Some err) => Returned (None, Some err)
       | Returned None => Returned (p, None)
       | Panicked why => Panicked why
       end;
     calls := (before ++ calls r)%list;
     world := world r |}.

(** The world after the secret was compared: only the clock moved. *)
Definition compared (w : World C S D K) : World C S D K :=
  {| verifier := verifier w; clock := time.elapse (clock w) |}.

(** The world after the local cache's [Get] of [id]. *)
Definition looked_up (id : string) (w : World C S D K) : World C S D K :=
  with_apiKeyCache (snd (cache.Get id (apiKeyCache (verifier w)))) w.

(** The world after the datastore's [Get] of [id]. *)
Definition fetched_from_store (ctx : Ctx) (id : string) (w : World C S D K) : World C S D K :=
  with_apiKeyStore (snd (Get ctx id (apiKeyStore (verifier w)))) w.

(** The world after the local cache's [Put] of the pointer [p] under [id]:
    a failure of the write leaves a warning in the log. *)
Definition written_back (id : string) (p : option APIKey) (w : World C S D K)
  : World C S D K :=
  let put := cache.Put id (PtrAPIKey p) (apiKeyCache (verifier w)) in
  match fst put with
  | Some err =>
      with_logger
        (zap.Warn "unable to store API key in memory cache" [zap.Error err]
                  (logger (verifier w)))
        (with_apiKeyCache (snd put) w)
  | None => with_apiKeyCache (snd put) w
  end.

(** [Verify] reaches [checkAPIKey] from the world [w] for the identifier
    [id]: after the calls [before] it holds the pointer [p], in the world
    [w1].  It does so on a hit of the local cache and on a fetch from the
    datastore. *)
Inductive reaches_check (ctx : Ctx) (id : string) (w : World C S D K)
  : list (Call APIKey) -> option APIKey -> World C S D K -> Prop :=
| by_cache (p : option APIKey) :
    fst (cache.Get id (apiKeyCache (verifier w))) = (PtrAPIKey p, None) ->
    reaches_check ctx id w [CacheGet id (PtrAPIKey p) None] p (looked_up id w)
| by_store (item : any APIKey) (e0 : error) (p : option APIKey) :
    fst (cache.Get id (apiKeyCache (verifier w))) = (item, Some e0) ->
    fst (Get ctx id (apiKeyStore (verifier w))) = (p, None) ->
    reaches_check ctx id w
      [CacheGet id item (Some e0);
       StoreGet id p None;
       CachePut id (PtrAPIKey p)
         (fst (cache.Put id (PtrAPIKey p)
                 (apiKeyCache (verifier (fetched_from_store ctx id (looked_up id w))))))]
      p
      (written_back id p (fetched_from_store ctx id (looked_up id w))).

(** The clock [k'] is the clock [k] after some calls. *)
Inductive later (k : K) : K -> Prop :=
| later_now : later k k
| later_elapse k' : later k k' -> later k (time.elapse k').

End Vocabulary.

(** ** Strings *)

Lemma append_nil_r (s : string) : s ++ "" = s.
Proof. induction s as [|c s IH]; cbn; [reflexivity | now rewrite IH]. Qed.

Lemma append_assoc (a b c : string) : (a ++ b) ++ c = a ++ b ++ c.
Proof. induction a as [|x a IH]; cbn; [reflexivity | now rewrite IH]. Qed.

Lemma length_append (a b : string) :
  String.length (a ++ b) = String.length a + String.length b.
Proof. induction a as [|x a IH]; cbn; [reflexivity | now rewrite IH]. Qed.

Lemma append_cancel_r (a b s : string) : a ++ s = b ++ s -> a = b.
Proof.
  revert b. induction a as [|x a IH]; intros [|y b] H; cbn in H.
  - reflexivity.
  - apply (f_equal String.length) in H. cbn in H. rewrite length_append in H. lia.
  - apply (f_equal String.length) in H. cbn in H. rewrite length_append in H. lia.
  - injection H as -> H. now rewrite (IH b H).
Qed.

(** ** How a call to [Verify] runs *)

Section VerifyRuns.

Context {APIKey Ctx C S D K : Type}.
Context {pkg : model.Package APIKey}.
Context {localCache : cache.Cache APIKey C}.
Context {getter : apiKeyGetter APIKey Ctx S}.
Context {hashCache : cache.Cache APIKey D}.
Context {wallClock : time.Clock K}.

Local Abbreviation World := (apikeyverifier.World C S D K).

Implicit Types (ctx : Ctx) (key id : string) (w : World) (r : APIKey)
  (p : option APIKey) (e : error).

Ltac step :=
  unfold Verify, checkAPIKey, concluded, bind, ret, panic, deref, assert_APIKey,
    apiKeyCache_Get, apiKeyCache_Put, apiKeyStore_Get, apiKeyLastUsedCache_Put,
    apiKey_CompareKey, time_Now_Unix, logger_Warn,
    with_apiKeyCache, with_apiKeyStore, with_apiKeyLastUsedCache, with_logger;
  cbn.

Lemma checkAPIKey_nil ctx id key w :
  checkAPIKey ctx None id key w =
  {| result := Panicked "invalid memory address or nil pointer dereference";
     calls := [];
     world := w |}.
Proof. reflexivity. Qed.

Lemma checkAPIKey_disabled ctx r id key w :
  model.Disabled r = true ->
  checkAPIKey ctx (Some r) id key w =
  {| result := Returned (Some (ErrDisabled id)); calls := []; world := w |}.
Proof. intros Hoff. step. rewrite Hoff. reflexivity. Qed.

Lemma checkAPIKey_invalid ctx r id key w e :
  model.Disabled r = false ->
  model.CompareKey r key = Some e ->
  checkAPIKey ctx (Some r) id key w =
  {| result := Returned (Some (ErrInvalidSecret id e));
     calls := [KeyCompare r key (Some e)];
     world := compared w |}.
Proof. intros Hon Hcmp. step. rewrite Hon. cbn. rewrite Hcmp. reflexivity. Qed.

Lemma checkAPIKey_valid ctx r id key w :
  model.Disabled r = false ->
  model.CompareKey r key = None ->
  checkAPIKey ctx (Some r) id key w =
  let now := time.Unix (time.elapse (clock w)) in
  let put := cache.Put id (Int64 now) (apiKeyLastUsedCache (verifier w)) in
  {| result :=
       Returned match fst put with
                | Some e => Some (ErrLastUsedWrite id e)
                | None => None
                end;
     calls := [KeyCompare r key None; LastUsedPut id (Int64 now) (fst put)];
     world := with_apiKeyLastUsedCache (snd put) (compared w) |}.
Proof.
  intros Hon Hcmp. step. rewrite Hon. cbn. rewrite Hcmp. cbn.
  destruct (fst (cache.Put id _ _)); reflexivity.
Qed.

Lemma Verify_malformed ctx key w e :
  snd (model.ExtractAPIKeyID key) = Some e ->
  Verify ctx key w = {| result := Returned (None, Some e); calls := []; world := w |}.
Proof. intros Hext. unfold Verify. rewrite Hext. reflexivity. Qed.

Lemma Verify_cached ctx key id w p :
  model.ExtractAPIKeyID key = (id, None) ->
  fst (cache.Get id (apiKeyCache (verifier w))) = (PtrAPIKey p, None) ->
  Verify ctx key w =
  concluded [CacheGet id (PtrAPIKey p) None] p
            (checkAPIKey ctx p id key (looked_up id w)).
Proof.
  intros Hext Hget. unfold Verify. rewrite Hext. cbn [fst snd].
  unfold bind, apiKeyCache_Get, concluded, looked_up.
  rewrite !Hget. cbn [fst snd assert_APIKey ret].
  destruct (checkAPIKey ctx p id key _) as [[[err|]|why] cs w']; cbn; rewrite ?app_nil_r; reflexivity.
Qed.

Lemma Verify_not_found ctx key id w item e0 p e :
  model.ExtractAPIKeyID key = (id, None) ->
  fst (cache.Get id (apiKeyCache (verifier w))) = (item, Some e0) ->
  fst (Get ctx id (apiKeyStore (verifier w))) = (p, Some e) ->
  Verify ctx key w =
  {| result := Returned (None, Some (ErrNotFound id e));
     calls := [CacheGet id item (Some e0); StoreGet id p (Some e)];
     world := fetched_from_store ctx id (looked_up id w) |}.
Proof.
  intros Hext Hget Hfetch. unfold Verify. rewrite Hext. cbn [fst snd].
  unfold bind, apiKeyCache_Get, apiKeyStore_Get.
  rewrite !Hget. cbn [fst snd with_apiKeyCache verifier apiKeyStore].
  rewrite !Hfetch. reflexivity.
Qed.

Lemma Verify_fetched ctx key id w item e0 p :
  model.ExtractAPIKeyID key = (id, None) ->
  fst (cache.Get id (apiKeyCache (verifier w))) = (item, Some e0) ->
  fst (Get ctx id (apiKeyStore (verifier w))) = (p, None) ->
  let w2 := fetched_from_store ctx id (looked_up id w) in
  Verify ctx key w =
  concluded [CacheGet id item (Some e0);
             StoreGet id p None;
             CachePut id (PtrAPIKey p)
                      (fst (cache.Put id (PtrAPIKey p) (apiKeyCache (verifier w2))))]
            p
            (checkAPIKey ctx p id key (written_back id p w2)).
Proof.
  intros Hext Hget Hfetch w2. subst w2. unfold Verify. rewrite Hext. cbn [fst snd].
  unfold bind, apiKeyCache_Get, apiKeyStore_Get.
  rewrite !Hget. cbn [fst snd with_apiKeyCache verifier apiKeyStore].
  rewrite !Hfetch. cbn [fst snd].
  unfold concluded, written_back, fetched_from_store, looked_up,
    apiKeyCache_Put, logger_Warn, ret.
  cbn [verifier apiKeyCache with_apiKeyStore with_apiKeyCache].
  destruct (cache.Put id (PtrAPIKey p) _) as [[err|] c2]; cbn [fst snd];
    unfold with_logger, with_apiKeyCache, with_apiKeyStore, zap.Warn;
    cbn [verifier clock apiKeyCache apiKeyStore apiKeyLastUsedCache logger];
    match goal with
    | |- context [checkAPIKey ctx p id key ?W] =>
        destruct (checkAPIKey ctx p id key W) as [[[err'|]|why] cs w']
    end;
    cbn; rewrite ?app_nil_r; reflexivity.
Qed.

Lemma Verify_bad_item ctx key id w item :
  model.ExtractAPIKeyID key = (id, None) ->
  fst (cache.Get id (apiKeyCache (verifier w))) = (item, None) ->
  (forall p, item <> PtrAPIKey p) ->
  exists why,
    Verify ctx key w =
    {| result := Panicked why; calls := [CacheGet id item None]; world := looked_up id w |}.
Proof.
  intros Hext Hget Hitem. unfold Verify. rewrite Hext. cbn [fst snd].
  unfold bind, apiKeyCache_Get. rewrite !Hget. cbn [fst snd].
  destruct item as [|p|n]; [| destruct (Hitem p); reflexivity |];
    eexists; reflexivity.
Qed.

Lemma Verify_reaches ctx key id w before p w1 :
  model.ExtractAPIKeyID key = (id, None) ->
  reaches_check ctx id w before p w1 ->
  Verify ctx key w = concluded before p (checkAPIKey ctx p id key w1).
Proof.
  intros Hext [q Hget | item e0 q Hget Hfetch].
  - now apply Verify_cached.
  - now apply (Verify_fetched ctx key id w item e0 q).
Qed.

Lemma later_le `{!time.Monotone K} (k k' : K) :
  later k k' -> (time.Unix k <= time.Unix k')%Z.
Proof.
  induction 1 as [|k' _ IH]; [lia |].
  pose proof (time.unix_elapse k'). lia.
Qed.

Lemma reaches_check_frame ctx id w before p w1 :
  reaches_check ctx id w before p w1 ->
  existsb is_LastUsedPut before = false
  /\ existsb is_KeyCompare before = false
  /\ apiKeyLastUsedCache (verifier w1) = apiKeyLastUsedCache (verifier w)
  /\ later (clock w) (clock w1).
Proof.
  intros [q Hget | item e0 q Hget Hfetch]; repeat split; try reflexivity.
  - unfold looked_up, with_apiKeyCache. cbn. repeat constructor.
  - unfold written_back. destruct (fst (cache.Put _ _ _)); reflexivity.
  - unfold written_back, fetched_from_store, looked_up.
    destruct (fst (cache.Put _ _ _)); cbn; repeat constructor.
Qed.

Lemma resolves_reaches ctx id w r :
  resolves ctx (verifier w) id r ->
  exists before w1, reaches_check ctx id w before (Some r) w1.
Proof.
  intros [Hget | item e0 Hget Hfetch].
  - eexists _, _. now apply by_cache.
  - eexists _, _. now apply (by_store ctx id w item e0 (Some r)).
Qed.

Lemma no_LastUsedPut (cs : list (Call APIKey)) :
  existsb is_LastUsedPut cs = false ->
  forall k x err, ~ In (LastUsedPut k x err) cs.
Proof.
  intros Hnone k x err Hin.
  assert (existsb is_LastUsedPut cs = true) as Hsome
    by (apply existsb_exists; now exists (LastUsedPut k x err)).
  congruence.
Qed.

Lemma no_KeyCompare (cs : list (Call APIKey)) :
  existsb is_KeyCompare cs = false ->
  forall r key err, ~ In (KeyCompare r key err) cs.
Proof.
  intros Hnone r key err Hin.
  assert (existsb is_KeyCompare cs = true) as Hsome
    by (apply existsb_exists; now exists (KeyCompare r key err)).
  congruence.
Qed.

(** Every call to [Verify] ends in one of three ways: the key is
    malformed; the call stops before [checkAPIKey], in a panic or with
    NotFound; or it reaches [checkAPIKey]. *)
Lemma Verify_cases ctx key w :
  (exists e,
      snd (model.ExtractAPIKeyID key) = Some e
      /\ Verify ctx key w =
         {| result := Returned (None, Some e); calls := []; world := w |})
  \/ (existsb is_KeyCompare (calls (Verify ctx key w)) = false
      /\ existsb is_LastUsedPut (calls (Verify ctx key w)) = false
      /\ ((exists why, result (Verify ctx key w) = Panicked why)
          \/ (exists e, result (Verify ctx key w)
                        = Returned (None, Some (ErrNotFound (fst (model.ExtractAPIKeyID key)) e)))))
  \/ (snd (model.ExtractAPIKeyID key) = None
      /\ exists before p w1,
           reaches_check ctx (fst (model.ExtractAPIKeyID key)) w before p w1).
Proof.
  destruct (model.ExtractAPIKeyID key) as [id [e|]] eqn:Hext; cbn [fst snd].
  { left. exists e. split; [reflexivity |].
    apply Verify_malformed. now rewrite Hext. }
  right.
  destruct (fst (cache.Get id (apiKeyCache (verifier w)))) as [item [e0|]] eqn:Hget.
  - destruct (fst (Get ctx id (apiKeyStore (verifier w)))) as [p [e|]] eqn:Hfetch.
    + left. rewrite (Verify_not_found ctx key id w item e0 p e Hext Hget Hfetch).
      repeat split. right. now exists e.
    + right. split; [reflexivity |]. eexists _, _, _.
      now apply (by_store ctx id w item e0 p).
  - destruct item as [|p|n].
    + left. destruct (Verify_bad_item ctx key id w Nil Hext Hget) as [why ->];
        [discriminate |]. repeat split. left. now exists why.
    + right. split; [reflexivity |]. eexists _, _, _. now apply (by_cache ctx id w p).
    + left. destruct (Verify_bad_item ctx key id w (Int64 n) Hext Hget) as [why ->];
        [discriminate |]. repeat split. left. now exists why.
Qed.

(** Every run of [checkAPIKey] ends in one of three ways: before the
    comparison, in a panic or with Disabled; with InvalidSecret after a
    comparison that failed; or with the write of the last-used time after
    a comparison that passed. *)
Lemma checkAPIKey_cases ctx p id key w :
  (calls (checkAPIKey ctx p id key w) = []
   /\ ((exists why, result (checkAPIKey ctx p id key w) = Panicked why)
       \/ result (checkAPIKey ctx p id key w) = Returned (Some (ErrDisabled id))))
  \/ (exists r e,
        model.Disabled r = false
        /\ calls (checkAPIKey ctx p id key w) = [KeyCompare r key (Some e)]
        /\ result (checkAPIKey ctx p id key w) = Returned (Some (ErrInvalidSecret id e)))
  \/ (exists r n err,
        p = Some r /\ model.Disabled r = false /\ model.CompareKey r key = None
        /\ calls (checkAPIKey ctx p id key w)
           = [KeyCompare r key None; LastUsedPut id (Int64 n) err]
        /\ result (checkAPIKey ctx p id key w)
           = Returned match err with
                      | Some e => Some (ErrLastUsedWrite id e)
                      | None => None
                      end).
Proof.
  destruct p as [r|].
  2:{ left. rewrite checkAPIKey_nil. split; [reflexivity |]. left. now eexists. }
  destruct (model.Disabled r) eqn:Hoff.
  { left. rewrite (checkAPIKey_disabled ctx r id key w Hoff). now split; [| right]. }
  destruct (model.CompareKey r key) as [e|] eqn:Hcmp.
  - right. left. exists r, e.
    now rewrite (checkAPIKey_invalid ctx r id key w e Hoff Hcmp).
  - right. right. rewrite (checkAPIKey_valid ctx r id key w Hoff Hcmp).
    eexists r, _, _. repeat split; try assumption.
Qed.

(** The errors of the taxonomy are told apart by their texts. *)
Lemma ErrLastUsedWrite_not_ErrNotFound id e id' e' :
  ErrLastUsedWrite id e <> ErrNotFound id' e'.
Proof. discriminate. Qed.

Lemma ErrLastUsedWrite_not_ErrDisabled id e id' :
  ErrLastUsedWrite id e <> ErrDisabled id'.
Proof. discriminate. Qed.

Lemma ErrLastUsedWrite_not_ErrInvalidSecret id e id' e' :
  ErrLastUsedWrite id e <> ErrInvalidSecret id' e'.
Proof. discriminate. Qed.

(** A call to [Verify] either never validates a record, and then neither
    writes the last-used cache nor succeeds; or it ends with the
    comparison that passed followed by the write, whose outcome decides
    the call's. *)
Lemma Verify_trace ctx key w :
  (existsb is_LastUsedPut (calls (Verify ctx key w)) = false
   /\ (forall r, ~ In (KeyCompare r key None) (calls (Verify ctx key w)))
   /\ (forall p, result (Verify ctx key w) <> Returned (p, None)))
  \/ (exists before r n err,
        calls (Verify ctx key w)
        = (before ++ [KeyCompare r key None;
                      LastUsedPut (fst (model.ExtractAPIKeyID key)) (Int64 n) err])%list
        /\ existsb is_LastUsedPut before = false
        /\ existsb is_KeyCompare before = false
        /\ model.Disabled r = false
        /\ model.CompareKey r key = None
        /\ result (Verify ctx key w)
           = Returned match err with
                      | Some e =>
                          (None, Some (ErrLastUsedWrite (fst (model.ExtractAPIKeyID key)) e))
                      | None => (Some r, None)
                      end).
Proof.
  destruct (Verify_cases ctx key w)
    as [(e & Hext & ->) | [(Hnocmp & Hnoput & Hres) | (Hext & before & p & w1 & Hreach)]].
  - left. repeat split; [intros r [] | discriminate].
  - left. repeat split; [assumption | intros r; now apply no_KeyCompare |].
    intros p. destruct Hres as [[why ->] | [e ->]]; discriminate.
  - destruct (reaches_check_frame _ _ _ _ _ _ Hreach) as (Hnoput & Hnocmp & _ & _).
    rewrite (Verify_reaches ctx key _ w before p w1
               (eq_trans (surjective_pairing _) (f_equal (pair _) Hext)) Hreach).
    cbn [concluded result calls world].
    destruct (checkAPIKey_cases ctx p (fst (model.ExtractAPIKeyID key)) key w1)
      as [(-> & Hres) | [(r & e & Hon & -> & ->) | (r & n & err & -> & Hon & Hcmp & -> & ->)]].
    + left. rewrite app_nil_r. repeat split;
        [assumption | intros r; now apply no_KeyCompare |].
      intros q. destruct Hres as [[why ->] | ->]; discriminate.
    + left. repeat split.
      * rewrite existsb_app, Hnoput. reflexivity.
      * intros r' [Hin | [Heq | []]]%in_app_or; [| discriminate].
        now apply (no_KeyCompare before Hnocmp r' key None).
      * discriminate.
    + right. exists before, r, n, err. repeat split; try assumption.
      now destruct err.
Qed.

Lemma Verify_accepts ctx key id r w :
  model.ExtractAPIKeyID key = (id, None) ->
  resolves ctx (verifier w) id r ->
  model.Disabled r = false ->
  model.CompareKey r key = None ->
  (forall k x e, ~ In (LastUsedPut k x (Some e)) (calls (Verify ctx key w))) ->
  result (Verify ctx key w) = Returned (Some r, None).
Proof.
  intros Hext Hres Hon Hcmp Hput.
  destruct (resolves_reaches ctx id w r Hres) as (before & w1 & Hreach).
  rewrite (Verify_reaches ctx key id w before (Some r) w1 Hext Hreach) in Hput |- *.
  rewrite (checkAPIKey_valid ctx r id key w1 Hon Hcmp) in Hput |- *.
  cbn [concluded result calls world] in Hput |- *.
  destruct (fst (cache.Put id _ (apiKeyLastUsedCache (verifier w1)))) as [e|];
    [| reflexivity].
  exfalso. eapply Hput. apply in_or_app. right. right. left. reflexivity.
Qed.

End VerifyRuns.

(** ** The verifier's properties *)

Section VerifySpec.

Context {APIKey Ctx C S D K : Type}.
Context {pkg : model.Package APIKey}.
Context {localCache : cache.Cache APIKey C}.
Context {getter : apiKeyGetter APIKey Ctx S}.
Context {hashCache : cache.Cache APIKey D}.
Context {wallClock : time.Clock K}.

Local Abbreviation World := (apikeyverifier.World C S D K).

Implicit Types (ctx : Ctx) (key id : string) (w : World) (r : APIKey)
  (p : option APIKey) (e : error).

(** C1. A raw key whose identifier resolves, from the local cache or from
    the datastore, to an enabled record that accepts the key is verified:
    when no [Put] on the last-used cache fails during the call, [Verify]
    returns the record, and the last-used cache then holds, under the
    identifier, a unix time that is not before the time at which the call
    was issued.  The clock is taken never to be set back, and the
    last-used cache to show what it accepted. *)
Theorem C1_valid_key_is_verified_and_use_recorded
    `{!time.Monotone K} `{!cache.PutThenGet APIKey D} ctx key id r w :
  model.ExtractAPIKeyID key = (id, None) ->
  resolves ctx (verifier w) id r ->
  model.Disabled r = false ->
  model.CompareKey r key = None ->
  (forall k x e, ~ In (LastUsedPut k x (Some e)) (calls (Verify ctx key w))) ->
  result (Verify ctx key w) = Returned (Some r, None)
  /\ exists n,
       (time.Unix (clock w) <= n)%Z
       /\ In (LastUsedPut id (Int64 n) None) (calls (Verify ctx key w))
       /\ fst (cache.Get id (apiKeyLastUsedCache (verifier (world (Verify ctx key w)))))
          = (Int64 n, None).
Proof.
  intros Hext Hres Hon Hcmp Hput.
  destruct (resolves_reaches ctx id w r Hres) as (before & w1 & Hreach).
  destruct (reaches_check_frame _ _ _ _ _ _ Hreach) as (_ & _ & Hframe & Hlater).
  rewrite (Verify_reaches ctx key id w before (Some r) w1 Hext Hreach) in Hput |- *.
  rewrite (checkAPIKey_valid ctx r id key w1 Hon Hcmp) in Hput |- *.
  cbn [concluded result calls world] in Hput |- *.
  set (now := time.Unix (time.elapse (clock w1))) in *.
  destruct (cache.Put id (Int64 now) (apiKeyLastUsedCache (verifier w1)))
    as [[e|] d'] eqn:Hwrite; cbn [fst snd] in Hput |- *.
  - exfalso. apply (Hput id (Int64 now) e).
    apply in_or_app. right. right. left. reflexivity.
  - split; [reflexivity |]. exists now. repeat split.
    + apply later_le. now constructor.
    + apply in_or_app. right. right. left. reflexivity.
    + apply (cache.put_then_get _ _ _ _ Hwrite).
Qed.

(** C2, as amended.  A record whose secret comparison rejects the raw key
    is refused, and the kind of the refusal follows the disabled flag:
    InvalidSecret, wrapping the comparison's error, for an enabled record,
    and Disabled for a disabled one. *)
Theorem C2_rejected_secret_is_refused ctx key id r w e :
  model.ExtractAPIKeyID key = (id, None) ->
  resolves ctx (verifier w) id r ->
  model.CompareKey r key = Some e ->
  result (Verify ctx key w) =
  Returned (None, Some (if model.Disabled r then ErrDisabled id
                        else ErrInvalidSecret id e))
  /\ Unwrap (ErrInvalidSecret id e) = Some e
  /\ Contains (Error (ErrInvalidSecret id e)) id.
Proof.
  intros Hext Hres Hcmp.
  destruct (resolves_reaches ctx id w r Hres) as (before & w1 & Hreach).
  rewrite (Verify_reaches ctx key id w before (Some r) w1 Hext Hreach).
  repeat split.
  - destruct (model.Disabled r) eqn:Hoff.
    + now rewrite checkAPIKey_disabled.
    + now rewrite (checkAPIKey_invalid ctx r id key w1 e).
  - now exists "invalid api key ", (": " ++ Error e ++ "").
Qed.

(** C3. A disabled record is refused with Disabled, whatever the secret
    comparison would answer: the comparison is not even made, and the
    last-used cache is left as it was. *)
Theorem C3_disabled_key_is_refused ctx key id r w :
  model.ExtractAPIKeyID key = (id, None) ->
  resolves ctx (verifier w) id r ->
  model.Disabled r = true ->
  result (Verify ctx key w) = Returned (None, Some (ErrDisabled id))
  /\ existsb is_KeyCompare (calls (Verify ctx key w)) = false
  /\ ~ written (calls (Verify ctx key w))
  /\ apiKeyLastUsedCache (verifier (world (Verify ctx key w)))
     = apiKeyLastUsedCache (verifier w).
Proof.
  intros Hext Hres Hoff.
  destruct (resolves_reaches ctx id w r Hres) as (before & w1 & Hreach).
  destruct (reaches_check_frame _ _ _ _ _ _ Hreach) as (Hnoput & Hnocmp & Hframe & _).
  rewrite (Verify_reaches ctx key id w before (Some r) w1 Hext Hreach).
  rewrite (checkAPIKey_disabled ctx r id key w1 Hoff).
  cbn [concluded result calls world]. rewrite app_nil_r.
  unfold written. rewrite Hnoput. repeat split; try assumption. discriminate.
Qed.

(** C5. A raw key from which no identifier can be extracted is refused
    with the extraction's error, and nothing else happens: no call to the
    local cache, the datastore or the last-used cache, and the world is
    unchanged. *)
Theorem C5_malformed_key_touches_nothing ctx key w e :
  snd (model.ExtractAPIKeyID key) = Some e ->
  result (Verify ctx key w) = Returned (None, Some e)
  /\ calls (Verify ctx key w) = []
  /\ world (Verify ctx key w) = w.
Proof. intros Hext. now rewrite (Verify_malformed ctx key w e Hext). Qed.

(** C8. When the local cache's [Get] returns an error and the datastore's
    [Get] returns an error too, [Verify] fails with NotFound, which wraps
    the datastore's error and names the identifier; the call stops there,
    after these two calls: nothing is written back, compared or recorded. *)
Theorem C8_unknown_key_is_not_found ctx key id w item e0 p e :
  model.ExtractAPIKeyID key = (id, None) ->
  fst (cache.Get id (apiKeyCache (verifier w))) = (item, Some e0) ->
  fst (Get ctx id (apiKeyStore (verifier w))) = (p, Some e) ->
  result (Verify ctx key w) = Returned (None, Some (ErrNotFound id e))
  /\ Unwrap (ErrNotFound id e) = Some e
  /\ Contains (Error (ErrNotFound id e)) id
  /\ Contains (Error (ErrNotFound id e)) (Error e)
  /\ calls (Verify ctx key w) = [CacheGet id item (Some e0); StoreGet id p (Some e)]
  /\ apiKeyLastUsedCache (verifier (world (Verify ctx key w)))
     = apiKeyLastUsedCache (verifier w)
  /\ logger (verifier (world (Verify ctx key w))) = logger (verifier w).
Proof.
  intros Hext Hget Hfetch.
  rewrite (Verify_not_found ctx key id w item e0 p e Hext Hget Hfetch).
  repeat split.
  - now exists "unable to find API key ", (" from datastore, " ++ Error e ++ "").
  - exists ("unable to find API key " ++ id ++ " from datastore, "), "".
    cbn. now rewrite append_assoc.
Qed.

(** C6, as amended.  When the local cache misses, the datastore returns a
    valid record and the write-back into the local cache fails, the
    failure is only reported: one warning carrying the error is logged, the
    record is validated and the last-used write is made all the same.  The
    call then succeeds and returns the record when that write succeeds, and
    fails with LastUsedWriteFailure when it does not. *)
Theorem C6_write_back_failure_is_only_logged ctx key id w item e0 r e1 :
  model.ExtractAPIKeyID key = (id, None) ->
  fst (cache.Get id (apiKeyCache (verifier w))) = (item, Some e0) ->
  fst (Get ctx id (apiKeyStore (verifier w))) = (Some r, None) ->
  model.Disabled r = false ->
  model.CompareKey r key = None ->
  fst (cache.Put id (PtrAPIKey (Some r)) (snd (cache.Get id (apiKeyCache (verifier w)))))
  = Some e1 ->
  exists n err,
    calls (Verify ctx key w)
    = [CacheGet id item (Some e0);
       StoreGet id (Some r) None;
       CachePut id (PtrAPIKey (Some r)) (Some e1);
       KeyCompare r key None;
       LastUsedPut id (Int64 n) err]
    /\ result (Verify ctx key w)
       = Returned match err with
                  | Some e => (None, Some (ErrLastUsedWrite id e))
                  | None => (Some r, None)
                  end
    /\ logger (verifier (world (Verify ctx key w)))
       = zap.Warn "unable to store API key in memory cache" [zap.Error e1]
                  (logger (verifier w)).
Proof.
  intros Hext Hget Hfetch Hon Hcmp Hback.
  rewrite (Verify_fetched ctx key id w item e0 (Some r) Hext Hget Hfetch).
  rewrite (checkAPIKey_valid ctx r id key _ Hon Hcmp).
  unfold written_back, fetched_from_store, looked_up.
  cbn [with_apiKeyStore with_apiKeyCache verifier apiKeyCache].
  rewrite Hback. cbn [concluded result calls world app].
  eexists _, _. repeat split.
  destruct (fst (cache.Put id (Int64 _) _)); reflexivity.
Qed.

(** C7. When the [Put] on the last-used cache returns an error, which
    happens only after a record passed the disabled check and the secret
    comparison, [Verify] returns no record but an error that wraps the
    cache's error and names the identifier. *)
Theorem C7_last_used_write_failure_is_fatal ctx key w k x e :
  In (LastUsedPut k x (Some e)) (calls (Verify ctx key w)) ->
  result (Verify ctx key w) = Returned (None, Some (ErrLastUsedWrite k e))
  /\ Unwrap (ErrLastUsedWrite k e) = Some e
  /\ Contains (Error (ErrLastUsedWrite k e)) k
  /\ k = fst (model.ExtractAPIKeyID key)
  /\ exists r, In (KeyCompare r key None) (calls (Verify ctx key w))
               /\ model.Disabled r = false
               /\ model.CompareKey r key = None.
Proof.
  intros Hin.
  destruct (Verify_trace ctx key w)
    as [(Hnoput & _) | (before & r & n & err & Hcalls & Hnoput & _ & Hon & Hcmp & Hres)].
  { now destruct (no_LastUsedPut _ Hnoput k x (Some e)). }
  rewrite Hcalls in Hin |- *.
  apply in_app_or in Hin as [Hin | [Heq | [Heq | []]]];
    [now destruct (no_LastUsedPut _ Hnoput k x (Some e)) | discriminate |].
  injection Heq as <- <- ->. rewrite Hres. repeat split.
  - now exists "unable to update the time API key ",
      (" was last used, " ++ Error e ++ "").
  - exists r. repeat split; try assumption.
    apply in_or_app. right. left. reflexivity.
Qed.

(** C10. Whatever error the local cache's [Get] returns, and whatever item
    comes with it, [Verify] goes on to the datastore: its second call is
    the datastore's [Get], and the rest of the call is that of a miss,
    decided by the datastore's answer alone: NotFound when the datastore
    fails, otherwise write-back and [checkAPIKey] on the fetched record.
    The cache's error is never the call's result, and a valid record in the
    datastore is verified. *)
Theorem C10_any_cache_read_error_is_a_miss ctx key id w item e0 :
  model.ExtractAPIKeyID key = (id, None) ->
  fst (cache.Get id (apiKeyCache (verifier w))) = (item, Some e0) ->
  let fetch := fst (Get ctx id (apiKeyStore (verifier w))) in
  let w2 := fetched_from_store ctx id (looked_up id w) in
  (exists rest,
      calls (Verify ctx key w)
      = CacheGet id item (Some e0) :: StoreGet id (fst fetch) (snd fetch) :: rest)
  /\ match snd fetch with
     | Some e =>
         Verify ctx key w =
         {| result := Returned (None, Some (ErrNotFound id e));
            calls := [CacheGet id item (Some e0); StoreGet id (fst fetch) (Some e)];
            world := w2 |}
     | None =>
         Verify ctx key w =
         concluded [CacheGet id item (Some e0);
                    StoreGet id (fst fetch) None;
                    CachePut id (PtrAPIKey (fst fetch))
                      (fst (cache.Put id (PtrAPIKey (fst fetch))
                              (apiKeyCache (verifier w2))))]
                   (fst fetch)
                   (checkAPIKey ctx (fst fetch) id key
                                (written_back id (fst fetch) w2))
     end
  /\ (forall r,
        fetch = (Some r, None) ->
        model.Disabled r = false ->
        model.CompareKey r key = None ->
        (forall k x e, ~ In (LastUsedPut k x (Some e)) (calls (Verify ctx key w))) ->
        result (Verify ctx key w) = Returned (Some r, None)).
Proof.
  intros Hext Hget fetch w2. subst fetch w2.
  destruct (fst (Get ctx id (apiKeyStore (verifier w)))) as [p [e|]] eqn:Hfetch;
    cbn [fst snd].
  - rewrite (Verify_not_found ctx key id w item e0 p e Hext Hget Hfetch).
    repeat split; [now exists [] | discriminate].
  - rewrite (Verify_fetched ctx key id w item e0 p Hext Hget Hfetch).
    repeat split; [now eexists |].
    intros r [= ->] Hon Hcmp Hput.
    rewrite <- (Verify_fetched ctx key id w item e0 (Some r) Hext Hget Hfetch) in Hput |- *.
    apply (Verify_accepts ctx key id r w Hext); try assumption.
    now apply (fetched ctx (verifier w) id r item e0).
Qed.

End VerifySpec.

(** ** The snapshot reader's properties *)

Section FileStoreSpec.

Context {Ctx Object T Snapshot : Type}.
Context {store : filestore.Store Ctx Object T}.
Context {decoder : json.Unmarshaler Snapshot}.

Lemma applicationLiveStatePath_eq (applicationID : string) :
  applicationlivestatestore.applicationLiveStatePath applicationID
  = "application-live-state/" ++ applicationID ++ ".json".
Proof. reflexivity. Qed.

Lemma applicationLiveStatePath_inj (a b : string) :
  applicationlivestatestore.applicationLiveStatePath a
  = applicationlivestatestore.applicationLiveStatePath b ->
  a = b.
Proof.
  rewrite !applicationLiveStatePath_eq. cbn. intros H.
  injection H as H. now apply append_cancel_r in H.
Qed.

(** C9. For every application identifier and every snapshot, [Put] returns
    the error "unimplemented", calls the backend not at all and leaves the
    store as it was.  [Get] makes one call to the backend, [GetObject] at
    the path [application-live-state/<id>.json], which identifies the
    application, and returns the snapshot decoded from the object's
    content, or the error of the backend or of the decoder. *)
Theorem C9_snapshot_reader_reads_and_never_writes
    (ctx : Ctx) (applicationID : string) (alss : option Snapshot)
    (f : applicationlivestatestore.applicationLiveStateFileStore T) :
  (applicationlivestatestore.results
     (applicationlivestatestore.Put ctx applicationID alss f)
   = Some (errors.New "unimplemented")
   /\ applicationlivestatestore.backend_calls
        (applicationlivestatestore.Put ctx applicationID alss f) = []
   /\ applicationlivestatestore.after
        (applicationlivestatestore.Put ctx applicationID alss f) = f)
  /\ applicationlivestatestore.applicationLiveStatePath applicationID
     = "application-live-state/" ++ applicationID ++ ".json"
  /\ (forall other,
        applicationlivestatestore.applicationLiveStatePath applicationID
        = applicationlivestatestore.applicationLiveStatePath other ->
        applicationID = other)
  /\ applicationlivestatestore.backend_calls
       (applicationlivestatestore.Get (Snapshot := Snapshot) ctx applicationID f)
     = [applicationlivestatestore.GetObjectCall
          (applicationlivestatestore.applicationLiveStatePath applicationID)]
  /\ let got :=
       filestore.GetObject ctx
         (applicationlivestatestore.applicationLiveStatePath applicationID)
         (applicationlivestatestore.backend f) in
     let decoded := json.Unmarshal (filestore.Content (fst (fst got))) json.zero in
     applicationlivestatestore.after
       (applicationlivestatestore.Get (Snapshot := Snapshot) ctx applicationID f)
     = {| applicationlivestatestore.backend := snd got |}
     /\ applicationlivestatestore.results
          (applicationlivestatestore.Get ctx applicationID f)
        = match snd (fst got), snd decoded with
          | Some err, _ => (None, Some err)
          | None, Some err => (None, Some err)
          | None, None => (Some (fst decoded), None)
          end.
Proof.
  repeat split. apply applicationLiveStatePath_inj.
Qed.

End FileStoreSpec.

(** ** The theorems at concrete inputs *)

#[global] Instance seconds_never_set_back : time.Monotone Z.
Proof. intros k. cbn. lia. Qed.

#[global] Instance hash_shows_what_it_accepted : cache.PutThenGet fake.APIKey fake.Hash.
Proof.
  intros key value h h'. cbn. unfold fake.hash_put, fake.hash_get.
  destruct (fake.hset_err h); [discriminate |].
  intros [= <-]. cbn. now rewrite String.eqb_refl.
Qed.

(** The scenario of a key that is already cached: one read of the local
    cache, the comparison and the last-used write; the datastore is not
    called. *)
Example Verify_cached_key :
  result (Verify tt "k1.s3cr3t" fake.warm) = Returned (Some fake.k1, None)
  /\ calls (Verify tt "k1.s3cr3t" fake.warm)
     = [CacheGet "k1" (PtrAPIKey (Some fake.k1)) None;
        KeyCompare fake.k1 "k1.s3cr3t" None;
        LastUsedPut "k1" (Int64 1002) None].
Proof. split; reflexivity. Qed.

(** A cached item that is no key record makes [Verify] panic. *)
Example Verify_cached_int64_panics :
  result (Verify tt "k1.s3cr3t"
            (fake.at_1000
               {| fake.rows := [("k1", Int64 7)];
                  fake.get_err := None;
                  fake.put_err := None |}
               [fake.k1] fake.empty_hash))
  = Panicked "interface conversion: interface {} is int64, not *model.APIKey".
Proof. reflexivity. Qed.

Example Sprintf_missing_operand :
  fmt.Sprintf "key %s of %s" [fmt.Str "k1"] = "key k1 of %!s(MISSING)".
Proof. reflexivity. Qed.

(** In a concrete list of calls, find the call. *)
Ltac find_call := repeat first [left; reflexivity | right].

(** In a concrete list of calls, no call is the one assumed. *)
Ltac no_such_call H :=
  vm_compute in H; repeat (destruct H as [H | H]; [discriminate H |]); exact H.

Lemma C1_witness :
  result (Verify tt "k1.s3cr3t" fake.cold) = Returned (Some fake.k1, None)
  /\ exists n,
       (1000 <= n)%Z
       /\ In (LastUsedPut "k1" (Int64 n) None) (calls (Verify tt "k1.s3cr3t" fake.cold))
       /\ fst (cache.Get "k1"
                 (apiKeyLastUsedCache (verifier (world (Verify tt "k1.s3cr3t" fake.cold)))))
          = (Int64 n, None).
Proof.
  refine (C1_valid_key_is_verified_and_use_recorded tt "k1.s3cr3t" "k1" fake.k1 fake.cold _ _ _ _ _).
  - reflexivity.
  - apply (fetched tt _ "k1" fake.k1 Nil (errors.New "not found")); reflexivity.
  - reflexivity.
  - reflexivity.
  - intros k x e H. no_such_call H.
Defined.

Lemma C2_counterexample :
  model.ExtractAPIKeyID (APIKey := fake.APIKey) "k1.wrong" = ("k1", None)
  /\ resolves tt (verifier fake.cold_disabled) "k1" fake.k1_disabled
  /\ model.CompareKey fake.k1_disabled "k1.wrong" = Some (errors.New "wrong api key")
  /\ model.Disabled fake.k1_disabled = true
  /\ result (Verify tt "k1.wrong" fake.cold_disabled)
     = Returned (None, Some (ErrDisabled "k1"))
  /\ (forall e, ErrDisabled "k1" <> ErrInvalidSecret "k1" e).
Proof.
  repeat split; try discriminate.
  apply (fetched tt _ "k1" fake.k1_disabled Nil (errors.New "not found")); reflexivity.
Qed.

Lemma C2_witness :
  result (Verify tt "k1.wrong" fake.cold)
  = Returned (None, Some (ErrInvalidSecret "k1" (errors.New "wrong api key")))
  /\ Unwrap (ErrInvalidSecret "k1" (errors.New "wrong api key"))
     = Some (errors.New "wrong api key")
  /\ Contains (Error (ErrInvalidSecret "k1" (errors.New "wrong api key"))) "k1".
Proof.
  refine (C2_rejected_secret_is_refused tt "k1.wrong" "k1" fake.k1 fake.cold
           (errors.New "wrong api key") _ _ _).
  - reflexivity.
  - apply (fetched tt _ "k1" fake.k1 Nil (errors.New "not found")); reflexivity.
  - reflexivity.
Defined.

Lemma C3_witness :
  result (Verify tt "k1.s3cr3t" fake.cold_disabled)
  = Returned (None, Some (ErrDisabled "k1"))
  /\ existsb is_KeyCompare (calls (Verify tt "k1.s3cr3t" fake.cold_disabled)) = false
  /\ ~ written (calls (Verify tt "k1.s3cr3t" fake.cold_disabled))
  /\ apiKeyLastUsedCache (verifier (world (Verify tt "k1.s3cr3t" fake.cold_disabled)))
     = fake.empty_hash.
Proof.
  refine (C3_disabled_key_is_refused tt "k1.s3cr3t" "k1" fake.k1_disabled
           fake.cold_disabled _ _ _).
  - reflexivity.
  - apply (fetched tt _ "k1" fake.k1_disabled Nil (errors.New "not found")); reflexivity.
  - reflexivity.
Defined.

Lemma C5_witness :
  result (Verify tt "k1" fake.cold)
  = Returned (None, Some (errors.New "malformed api key"))
  /\ calls (Verify tt "k1" fake.cold) = []
  /\ world (Verify tt "k1" fake.cold) = fake.cold.
Proof.
  refine (C5_malformed_key_touches_nothing tt "k1" fake.cold
           (errors.New "malformed api key") _).
  reflexivity.
Defined.

Lemma C6_counterexample :
  model.ExtractAPIKeyID (APIKey := fake.APIKey) "k1.s3cr3t" = ("k1", None)
  /\ fst (cache.Get "k1" (apiKeyCache (verifier fake.cold_readonly_broken_hash)))
     = (Nil, Some (errors.New "not found"))
  /\ fst (Get tt "k1" (apiKeyStore (verifier fake.cold_readonly_broken_hash)))
     = (Some fake.k1, None)
  /\ model.Disabled fake.k1 = false
  /\ model.CompareKey fake.k1 "k1.s3cr3t" = None
  /\ fst (cache.Put "k1" (PtrAPIKey (Some fake.k1))
            (snd (cache.Get "k1"
                    (apiKeyCache (verifier fake.cold_readonly_broken_hash)))))
     = Some (errors.New "cache is full")
  /\ result (Verify tt "k1.s3cr3t" fake.cold_readonly_broken_hash)
     = Returned (None, Some (ErrLastUsedWrite "k1" (errors.New "connection refused")))
  /\ result (Verify tt "k1.s3cr3t" fake.cold_readonly_broken_hash)
     <> Returned (Some fake.k1, None).
Proof. repeat split. discriminate. Qed.

Lemma C6_witness :
  exists n err,
    calls (Verify tt "k1.s3cr3t" fake.cold_readonly)
    = [CacheGet "k1" Nil (Some (errors.New "not found"));
       StoreGet "k1" (Some fake.k1) None;
       CachePut "k1" (PtrAPIKey (Some fake.k1)) (Some (errors.New "cache is full"));
       KeyCompare fake.k1 "k1.s3cr3t" None;
       LastUsedPut "k1" (Int64 n) err]
    /\ result (Verify tt "k1.s3cr3t" fake.cold_readonly)
       = Returned match err with
                  | Some e => (None, Some (ErrLastUsedWrite "k1" e))
                  | None => (Some fake.k1, None)
                  end
    /\ logger (verifier (world (Verify tt "k1.s3cr3t" fake.cold_readonly)))
       = zap.Warn "unable to store API key in memory cache"
                  [zap.Error (errors.New "cache is full")] [].
Proof.
  refine (C6_write_back_failure_is_only_logged tt "k1.s3cr3t" "k1" fake.cold_readonly
           Nil (errors.New "not found") fake.k1 (errors.New "cache is full") _ _ _ _ _ _);
    reflexivity.
Defined.

Lemma C7_witness :
  result (Verify tt "k1.s3cr3t" fake.cold_broken_hash)
  = Returned (None, Some (ErrLastUsedWrite "k1" (errors.New "connection refused")))
  /\ Unwrap (ErrLastUsedWrite "k1" (errors.New "connection refused"))
     = Some (errors.New "connection refused")
  /\ Contains (Error (ErrLastUsedWrite "k1" (errors.New "connection refused"))) "k1"
  /\ "k1" = fst (model.ExtractAPIKeyID (APIKey := fake.APIKey) "k1.s3cr3t")
  /\ exists r, In (KeyCompare r "k1.s3cr3t" None)
                  (calls (Verify tt "k1.s3cr3t" fake.cold_broken_hash))
               /\ model.Disabled r = false
               /\ model.CompareKey r "k1.s3cr3t" = None.
Proof.
  refine (C7_last_used_write_failure_is_fatal tt "k1.s3cr3t" fake.cold_broken_hash
           "k1" (Int64 1004) (errors.New "connection refused") _).
  vm_compute. find_call.
Defined.

Lemma C8_witness :
  result (Verify tt "k1.s3cr3t" fake.cold_unknown)
  = Returned (None, Some (ErrNotFound "k1" (errors.New "not found")))
  /\ Unwrap (ErrNotFound "k1" (errors.New "not found")) = Some (errors.New "not found")
  /\ Contains (Error (ErrNotFound "k1" (errors.New "not found"))) "k1"
  /\ Contains (Error (ErrNotFound "k1" (errors.New "not found"))) "not found"
  /\ calls (Verify tt "k1.s3cr3t" fake.cold_unknown)
     = [CacheGet "k1" Nil (Some (errors.New "not found"));
        StoreGet "k1" None (Some (errors.New "not found"))]
  /\ apiKeyLastUsedCache (verifier (world (Verify tt "k1.s3cr3t" fake.cold_unknown)))
     = fake.empty_hash
  /\ logger (verifier (world (Verify tt "k1.s3cr3t" fake.cold_unknown))) = [].
Proof.
  refine (C8_unknown_key_is_not_found tt "k1.s3cr3t" "k1" fake.cold_unknown
           Nil (errors.New "not found") None (errors.New "not found") _ _ _);
    reflexivity.
Defined.

Lemma C10_witness :
  (exists rest,
      calls (Verify tt "k1.s3cr3t" fake.cold_unreadable)
      = CacheGet "k1" Nil (Some (errors.New "i/o timeout"))
        :: StoreGet "k1" (Some fake.k1) None :: rest)
  /\ Verify tt "k1.s3cr3t" fake.cold_unreadable
     = concluded
         [CacheGet "k1" Nil (Some (errors.New "i/o timeout"));
          StoreGet "k1" (Some fake.k1) None;
          CachePut "k1" (PtrAPIKey (Some fake.k1)) None]
         (Some fake.k1)
         (checkAPIKey tt (Some fake.k1) "k1" "k1.s3cr3t"
            (written_back "k1" (Some fake.k1)
               (fetched_from_store tt "k1" (looked_up "k1" fake.cold_unreadable))))
  /\ (forall r,
        (Some fake.k1, @None error) = (Some r, None) ->
        model.Disabled r = false ->
        model.CompareKey r "k1.s3cr3t" = None ->
        (forall k x e,
            ~ In (LastUsedPut k x (Some e))
                 (calls (Verify tt "k1.s3cr3t" fake.cold_unreadable))) ->
        result (Verify tt "k1.s3cr3t" fake.cold_unreadable) = Returned (Some r, None)).
Proof.
  refine (C10_any_cache_read_error_is_a_miss tt "k1.s3cr3t" "k1" fake.cold_unreadable
           Nil (errors.New "i/o timeout") _ _);
    reflexivity.
Defined.

(** * Further properties of the two packages *)

(** ** Every run of [checkAPIKey] and of [Verify] *)

Section AllRuns.

Context {APIKey Ctx C S D K : Type}.
Context {pkg : model.Package APIKey}.
Context {localCache : cache.Cache APIKey C}.
Context {getter : apiKeyGetter APIKey Ctx S}.
Context {hashCache : cache.Cache APIKey D}.
Context {wallClock : time.Clock K}.

Local Abbreviation World := (apikeyverifier.World C S D K).

Implicit Types (ctx : Ctx) (key id : string) (w : World) (r : APIKey)
  (p : option APIKey) (e : error).

(** The unix time [checkAPIKey] reads in the world [w], after the
    comparison. *)
Definition stamp (w : World) : Z := time.Unix (time.elapse (clock w)).

(** The [Put] of that time under [id] on the last-used cache of [w]. *)
Definition recorded (id : string) (w : World) : option error * D :=
  cache.Put id (Int64 (stamp w)) (apiKeyLastUsedCache (verifier w)).

(** The four ways [checkAPIKey] runs, each with the whole run. *)
Inductive check_ran ctx p id key w : Prop :=
| ran_nil :
    p = None ->
    checkAPIKey ctx p id key w =
    {| result := Panicked "invalid memory address or nil pointer dereference";
       calls := [];
       world := w |} ->
    check_ran ctx p id key w
| ran_disabled r :
    p = Some r ->
    model.Disabled r = true ->
    checkAPIKey ctx p id key w =
    {| result := Returned (Some (ErrDisabled id)); calls := []; world := w |} ->
    check_ran ctx p id key w
| ran_invalid r e :
    p = Some r ->
    model.Disabled r = false ->
    model.CompareKey r key = Some e ->
    checkAPIKey ctx p id key w =
    {| result := Returned (Some (ErrInvalidSecret id e));
       calls := [KeyCompare r key (Some e)];
       world := compared w |} ->
    check_ran ctx p id key w
| ran_valid r :
    p = Some r ->
    model.Disabled r = false ->
    model.CompareKey r key = None ->
    checkAPIKey ctx p id key w =
    {| result :=
         Returned match fst (recorded id w) with
                  | Some e => Some (ErrLastUsedWrite id e)
                  | None => None
                  end;
       calls := [KeyCompare r key None; LastUsedPut id (Int64 (stamp w)) (fst (recorded id w))];
       world := with_apiKeyLastUsedCache (snd (recorded id w)) (compared w) |} ->
    check_ran ctx p id key w.

(** The four ways [Verify] runs, each with the whole run. *)
Inductive Verify_ran ctx key w : Prop :=
| ran_malformed e :
    snd (model.ExtractAPIKeyID key) = Some e ->
    Verify ctx key w =
    {| result := Returned (None, Some e); calls := []; world := w |} ->
    Verify_ran ctx key w
| ran_bad_item item why :
    snd (model.ExtractAPIKeyID key) = None ->
    fst (cache.Get (fst (model.ExtractAPIKeyID key)) (apiKeyCache (verifier w)))
    = (item, None) ->
    (forall p, item <> PtrAPIKey p) ->
    Verify ctx key w =
    {| result := Panicked why;
       calls := [CacheGet (fst (model.ExtractAPIKeyID key)) item None];
       world := looked_up (fst (model.ExtractAPIKeyID key)) w |} ->
    Verify_ran ctx key w
| ran_not_found item e0 p e :
    snd (model.ExtractAPIKeyID key) = None ->
    fst (cache.Get (fst (model.ExtractAPIKeyID key)) (apiKeyCache (verifier w)))
    = (item, Some e0) ->
    fst (Get ctx (fst (model.ExtractAPIKeyID key)) (apiKeyStore (verifier w)))
    = (p, Some e) ->
    Verify ctx key w =
    {| result := Returned (None, Some (ErrNotFound (fst (model.ExtractAPIKeyID key)) e));
       calls := [CacheGet (fst (model.ExtractAPIKeyID key)) item (Some e0);
                 StoreGet (fst (model.ExtractAPIKeyID key)) p (Some e)];
       world := fetched_from_store ctx (fst (model.ExtractAPIKeyID key))
                  (looked_up (fst (model.ExtractAPIKeyID key)) w) |} ->
    Verify_ran ctx key w
| ran_check before p w1 :
    snd (model.ExtractAPIKeyID key) = None ->
    reaches_check ctx (fst (model.ExtractAPIKeyID key)) w before p w1 ->
    Verify ctx key w =
    concluded before p (checkAPIKey ctx p (fst (model.ExtractAPIKeyID key)) key w1) ->
    Verify_ran ctx key w.

Lemma checkAPIKey_ran ctx p id key w : check_ran ctx p id key w.
Proof.
  destruct p as [r|]; [| now apply ran_nil].
  destruct (model.Disabled r) eqn:Hoff.
  { apply (ran_disabled ctx _ id key w r); auto using checkAPIKey_disabled. }
  destruct (model.CompareKey r key) as [e|] eqn:Hcmp.
  - apply (ran_invalid ctx _ id key w r e); auto using checkAPIKey_invalid.
  - apply (ran_valid ctx _ id key w r); auto.
    now rewrite (checkAPIKey_valid ctx r id key w Hoff Hcmp).
Qed.

Lemma Verify_runs ctx key w : Verify_ran ctx key w.
Proof.
  destruct (model.ExtractAPIKeyID key) as [id [e|]] eqn:Hext.
  { apply (ran_malformed ctx key w e); rewrite ?Hext; [reflexivity |].
    apply Verify_malformed. now rewrite Hext. }
  destruct (fst (cache.Get id (apiKeyCache (verifier w)))) as [item [e0|]] eqn:Hget.
  - destruct (fst (Get ctx id (apiKeyStore (verifier w)))) as [p [e|]] eqn:Hfetch.
    + apply (ran_not_found ctx key w item e0 p e); rewrite ?Hext; cbn [fst snd]; auto.
      now apply (Verify_not_found ctx key id w item e0 p e).
    + eapply ran_check; rewrite ?Hext; cbn [fst snd];
        [reflexivity | exact (by_store ctx id w item e0 p Hget Hfetch) |].
      now apply (Verify_fetched ctx key id w item e0 p).
  - destruct item as [|p|n].
    + destruct (Verify_bad_item ctx key id w Nil Hext Hget) as [why Hrun];
        [discriminate |].
      apply (ran_bad_item ctx key w Nil why); rewrite ?Hext; cbn [fst snd]; auto.
      discriminate.
    + eapply ran_check; rewrite ?Hext; cbn [fst snd];
        [reflexivity | exact (by_cache ctx id w p Hget) |].
      now apply Verify_cached.
    + destruct (Verify_bad_item ctx key id w (Int64 n) Hext Hget) as [why Hrun];
        [discriminate |].
      apply (ran_bad_item ctx key w (Int64 n) why); rewrite ?Hext; cbn [fst snd]; auto.
      discriminate.
Qed.

End AllRuns.

(** ** What every call to [Verify] does *)

Section VerifyMore.

Context {APIKey Ctx C S D K : Type}.
Context {pkg : model.Package APIKey}.
Context {localCache : cache.Cache APIKey C}.
Context {getter : apiKeyGetter APIKey Ctx S}.
Context {hashCache : cache.Cache APIKey D}.
Context {wallClock : time.Clock K}.

Local Abbreviation World := (apikeyverifier.World C S D K).

Implicit Types (ctx : Ctx) (key id : string) (w : World) (r : APIKey)
  (p : option APIKey) (e : error).

Definition is_CacheGet (c : Call APIKey) : bool :=
  match c with
  | CacheGet _ _ _ => true
  | _ => false
  end.

Definition is_StoreGet (c : Call APIKey) : bool :=
  match c with
  | StoreGet _ _ _ => true
  | _ => false
  end.

Definition is_CachePut (c : Call APIKey) : bool :=
  match c with
  | CachePut _ _ _ => true
  | _ => false
  end.

(** The place of a call in the order of the source. *)
Definition stage (c : Call APIKey) : nat :=
  match c with
  | CacheGet _ _ _ => 0
  | StoreGet _ _ _ => 1
  | CachePut _ _ _ => 2
  | KeyCompare _ _ _ => 3
  | LastUsedPut _ _ _ => 4
  end.

Fixpoint strictly_increasing (l : list nat) : bool :=
  match l with
  | a :: (b :: _) as rest => (a <? b)%nat && strictly_increasing rest
  | _ => true
  end.

(** The call [c] is about the identifier [id] and the raw key [key]. *)
Definition about (id key : string) (c : Call APIKey) : Prop :=
  match c with
  | CacheGet k _ _ => k = id
  | StoreGet k _ _ => k = id
  | CachePut k _ _ => k = id
  | KeyCompare _ k _ => k = key
  | LastUsedPut k _ _ => k = id
  end.

(** The warnings [Verify] logs for the calls [cs]: one for each write-back
    that failed. *)
Fixpoint write_back_warnings (cs : list (Call APIKey)) : list zap.Entry :=
  match cs with
  | [] => []
  | CachePut _ _ (Some err) :: rest =>
      {| zap.EntryLevel := zap.WarnLevel;
         zap.Message := "unable to store API key in memory cache";
         zap.Fields := [zap.Error err] |} :: write_back_warnings rest
  | _ :: rest => write_back_warnings rest
  end.

(** Case analysis over every run of [Verify]: the three runs that stop
    before [checkAPIKey], and the four runs of [checkAPIKey] after a hit
    and after a fetch. *)
Ltac every_run ctx key w :=
  let Hrun := fresh "Hrun" in
  destruct (Verify_runs ctx key w)
    as [e Hext Hrun | item why Hext Hget Hitem Hrun
       | item e0 p e Hext Hget Hfetch Hrun | before p w1 Hext Hreach Hrun];
  [ | | |
    revert Hrun; destruct Hreach as [q Hget | item e0 q Hget Hfetch]; intros Hrun;
    match type of Hrun with
    | _ = concluded _ _ (checkAPIKey ?c ?q ?i ?k ?w1) =>
        destruct (checkAPIKey_ran c q i k w1)
          as [Hp Hchk | r Hp Hoff Hchk | r e Hp Hon Hcmp Hchk | r Hp Hon Hcmp Hchk];
        rewrite Hchk in Hrun; unfold concluded in Hrun;
        cbn [result calls world app] in Hrun
    end ];
  rewrite !Hrun; cbn [result calls world app]; clear Hrun.

Lemma reaches_resolves ctx id w before r w1 :
  reaches_check ctx id w before (Some r) w1 -> resolves ctx (verifier w) id r.
Proof.
  inversion 1; subst; [now apply cached | now apply (fetched ctx _ id r item e0)].
Qed.

(** X1. [Verify] returns a record only for a key that is valid: when it
    returns no error, the identifier was extracted, the result is a record
    the identifier resolves to, the record is enabled and accepts the raw
    key, and the [Put] of the last-used time returned nil. *)
Theorem X1_success_only_for_valid_keys ctx key w p :
  result (Verify ctx key w) = Returned (p, None) ->
  snd (model.ExtractAPIKeyID key) = None
  /\ exists r,
       p = Some r
       /\ resolves ctx (verifier w) (fst (model.ExtractAPIKeyID key)) r
       /\ model.Disabled r = false
       /\ model.CompareKey r key = None
       /\ exists n, In (LastUsedPut (fst (model.ExtractAPIKeyID key)) (Int64 n) None)
                       (calls (Verify ctx key w)).
Proof.
  destruct (Verify_runs ctx key w)
    as [e Hext Hrun | item why Hext Hget Hitem Hrun
       | item e0 q e Hext Hget Hfetch Hrun | before q w1 Hext Hreach Hrun];
    rewrite Hrun; cbn [result]; try discriminate.
  destruct (checkAPIKey_ran ctx q (fst (model.ExtractAPIKeyID key)) key w1)
    as [Hp Hchk | r Hp Hoff Hchk | r e Hp Hon Hcmp Hchk | r Hp Hon Hcmp Hchk];
    rewrite Hchk; cbn [concluded result calls]; try discriminate.
  destruct (fst (recorded _ w1)) as [e|]; [discriminate |].
  intros [= <-]. subst q. split; [assumption |]. exists r. repeat split; try assumption.
  - now apply (reaches_resolves ctx _ w before r w1).
  - exists (stamp w1). apply in_or_app. right. right. left. reflexivity.
Qed.

(** X2. What [Verify] returns is either a record without error or an error
    without record: never both, never neither. *)
Theorem X2_record_or_error_never_both ctx key w :
  match result (Verify ctx key w) with
  | Returned (Some _, None) | Returned (None, Some _) => True
  | Returned (Some _, Some _) | Returned (None, None) => False
  | Panicked _ => True
  end.
Proof.
  every_run ctx key w; try exact I.
  all: destruct (fst (recorded _ _)); subst; exact I.
Qed.

(** Unfolds the worlds the runs end in. *)
Ltac worlds :=
  unfold written_back, fetched_from_store, looked_up, compared,
    with_apiKeyLastUsedCache, with_apiKeyStore, with_apiKeyCache, with_logger;
  cbn [verifier clock apiKeyCache apiKeyStore apiKeyLastUsedCache logger fst snd].

(** The state of the last-used cache after a call: as before when the
    call made no [Put] on it, and otherwise what that [Put] left, the call
    recording what the [Put] returned. *)
Lemma Verify_last_used_state ctx key w :
  (existsb is_LastUsedPut (calls (Verify ctx key w)) = false ->
   apiKeyLastUsedCache (verifier (world (Verify ctx key w)))
   = apiKeyLastUsedCache (verifier w))
  /\ (forall k x err,
        In (LastUsedPut k x err) (calls (Verify ctx key w)) ->
        cache.Put k x (apiKeyLastUsedCache (verifier w))
        = (err, apiKeyLastUsedCache (verifier (world (Verify ctx key w))))).
Proof.
  every_run ctx key w; unfold recorded, stamp; worlds; split;
    try discriminate; try reflexivity;
    try (intros k x err Hin; cbn in Hin;
         repeat (destruct Hin as [Hin | Hin]; [try discriminate Hin |]);
         try contradiction; injection Hin as <- <- <-);
    try (destruct (fst (cache.Put _ (PtrAPIKey _) _)));
    try reflexivity; apply surjective_pairing.
Qed.

(** X3. [Verify] panics in exactly two situations: the local cache returns,
    without error, an item that is no pointer to a key record or is a nil
    pointer; or the local cache returns an error and the datastore returns
    a nil record without error. *)
Theorem X3_panics_exactly_on_nil_or_foreign_item ctx key w :
  (exists why, result (Verify ctx key w) = Panicked why)
  <-> snd (model.ExtractAPIKeyID key) = None
      /\ ((exists item,
              fst (cache.Get (fst (model.ExtractAPIKeyID key)) (apiKeyCache (verifier w)))
              = (item, None)
              /\ forall r, item <> PtrAPIKey (Some r))
          \/ (exists item e0,
                 fst (cache.Get (fst (model.ExtractAPIKeyID key)) (apiKeyCache (verifier w)))
                 = (item, Some e0)
                 /\ fst (Get ctx (fst (model.ExtractAPIKeyID key)) (apiKeyStore (verifier w)))
                    = (None, None))).
Proof.
  split.
  - intros [reason Hpanic]. revert Hpanic.
    every_run ctx key w; try discriminate;
      try (destruct (fst (recorded _ _)); discriminate);
      intros _; (split; [assumption |]).
    + left. exists item. split; [assumption |]. intros r. apply Hitem.
    + left. exists (PtrAPIKey q). subst q. split; [assumption | discriminate].
    + right. exists item, e0. now subst q.
  - intros (Hnone & Hwhen).
    destruct (model.ExtractAPIKeyID key) as [id o] eqn:Hext.
    cbn [fst snd] in *. subst o.
    destruct Hwhen as [(item & Hget & Hitem) | (item & e0 & Hget & Hfetch)].
    + destruct item as [|[r|]|n].
      * destruct (Verify_bad_item ctx key id w Nil Hext Hget) as [why ->];
          [discriminate | now exists why].
      * now destruct (Hitem r).
      * rewrite (Verify_cached ctx key id w None Hext Hget), checkAPIKey_nil.
        now eexists.
      * destruct (Verify_bad_item ctx key id w (Int64 n) Hext Hget) as [why ->];
          [discriminate | now exists why].
    + rewrite (Verify_fetched ctx key id w item e0 None Hext Hget Hfetch), checkAPIKey_nil.
      now eexists.
Qed.

(** X4. On a hit of the local cache (its [Get] returns no error) [Verify]
    neither calls the datastore nor writes the local cache nor logs: the
    datastore and the log are as before, and the local cache is as its
    [Get] left it. *)
Theorem X4_hit_spares_the_datastore ctx key id w :
  model.ExtractAPIKeyID key = (id, None) ->
  snd (fst (cache.Get id (apiKeyCache (verifier w)))) = None ->
  existsb is_StoreGet (calls (Verify ctx key w)) = false
  /\ existsb is_CachePut (calls (Verify ctx key w)) = false
  /\ apiKeyStore (verifier (world (Verify ctx key w))) = apiKeyStore (verifier w)
  /\ apiKeyCache (verifier (world (Verify ctx key w)))
     = snd (cache.Get id (apiKeyCache (verifier w)))
  /\ logger (verifier (world (Verify ctx key w))) = logger (verifier w).
Proof.
  intros Hid Hhit. revert Hhit.
  replace id with (fst (model.ExtractAPIKeyID key)) by now rewrite Hid.
  every_run ctx key w; intros Hhit;
    try (rewrite Hget in Hhit; discriminate);
    try (rewrite Hid in Hext; discriminate);
    worlds; repeat split.
Qed.

(** X5. [Verify] makes its calls in the order of the source and each at
    most once, so there are at most five and none is repeated: the local
    cache's [Get], the datastore's [Get], the local cache's [Put], the
    comparison, the last-used cache's [Put].  Every call is about the
    identifier extracted from the raw key, the comparison about the raw key
    itself. *)
Theorem X5_calls_in_source_order_at_most_once ctx key w :
  strictly_increasing (map stage (calls (Verify ctx key w))) = true
  /\ Forall (about (fst (model.ExtractAPIKeyID key)) key) (calls (Verify ctx key w))
  /\ (length (calls (Verify ctx key w)) <= 5)%nat.
Proof.
  every_run ctx key w; repeat split; cbn; try lia; repeat constructor.
Qed.

Lemma checkAPIKey_keeps_cache_and_store ctx p id key w :
  apiKeyCache (verifier (world (checkAPIKey ctx p id key w))) = apiKeyCache (verifier w)
  /\ apiKeyStore (verifier (world (checkAPIKey ctx p id key w))) = apiKeyStore (verifier w)
  /\ logger (verifier (world (checkAPIKey ctx p id key w))) = logger (verifier w).
Proof.
  destruct (checkAPIKey_ran ctx p id key w)
    as [Hp Hchk | r Hp Hoff Hchk | r e Hp Hon Hcmp Hchk | r Hp Hon Hcmp Hchk];
    rewrite Hchk; repeat split.
Qed.

Lemma Verify_fetched_cache ctx key id w item e0 p :
  model.ExtractAPIKeyID key = (id, None) ->
  fst (cache.Get id (apiKeyCache (verifier w))) = (item, Some e0) ->
  fst (Get ctx id (apiKeyStore (verifier w))) = (p, None) ->
  apiKeyCache (verifier (world (Verify ctx key w)))
  = snd (cache.Put id (PtrAPIKey p) (snd (cache.Get id (apiKeyCache (verifier w))))).
Proof.
  intros Hext Hget Hfetch.
  rewrite (Verify_fetched ctx key id w item e0 p Hext Hget Hfetch).
  cbn [concluded world].
  destruct (checkAPIKey_keeps_cache_and_store ctx p id key
              (written_back id p (fetched_from_store ctx id (looked_up id w))))
    as (-> & _).
  worlds. now destruct (fst (cache.Put _ _ _)).
Qed.

(** X6. The record fetched from the datastore is written to the local
    cache before it is validated: whatever the datastore returned without
    error, be it a disabled record, a record that rejects the key or a nil
    pointer, [Verify] puts it into the local cache under the identifier,
    and the cache is left as that [Put] left it. *)
Theorem X6_fetched_record_is_cached_unvalidated ctx key id w item e0 p :
  model.ExtractAPIKeyID key = (id, None) ->
  fst (cache.Get id (apiKeyCache (verifier w))) = (item, Some e0) ->
  fst (Get ctx id (apiKeyStore (verifier w))) = (p, None) ->
  In (CachePut id (PtrAPIKey p)
        (fst (cache.Put id (PtrAPIKey p) (snd (cache.Get id (apiKeyCache (verifier w)))))))
     (calls (Verify ctx key w))
  /\ apiKeyCache (verifier (world (Verify ctx key w)))
     = snd (cache.Put id (PtrAPIKey p) (snd (cache.Get id (apiKeyCache (verifier w))))).
Proof.
  intros Hext Hget Hfetch. split.
  - rewrite (Verify_fetched ctx key id w item e0 p Hext Hget Hfetch).
    cbn [concluded calls]. apply in_or_app. left. right. right. left. reflexivity.
  - now apply (Verify_fetched_cache ctx key id w item e0 p).
Qed.

(** X7. After a call that fetched a record from the datastore and wrote it
    back without error, the next call for the same identifier is served
    from the local cache and does not call the datastore, provided the
    local cache shows what it accepted. *)
Theorem X7_second_call_is_served_from_cache
    `{!cache.PutThenGet APIKey C} ctx ctx' key key' id w item e0 p :
  model.ExtractAPIKeyID key = (id, None) ->
  model.ExtractAPIKeyID key' = (id, None) ->
  fst (cache.Get id (apiKeyCache (verifier w))) = (item, Some e0) ->
  fst (Get ctx id (apiKeyStore (verifier w))) = (p, None) ->
  fst (cache.Put id (PtrAPIKey p) (snd (cache.Get id (apiKeyCache (verifier w))))) = None ->
  existsb is_StoreGet (calls (Verify ctx' key' (world (Verify ctx key w)))) = false
  /\ exists rest,
       calls (Verify ctx' key' (world (Verify ctx key w)))
       = CacheGet id (PtrAPIKey p) None :: rest
       /\ existsb is_CacheGet rest = false.
Proof.
  intros Hext Hext' Hget Hfetch Hback.
  assert (fst (cache.Get id (apiKeyCache (verifier (world (Verify ctx key w)))))
          = (PtrAPIKey p, None)) as Hhit.
  { rewrite (Verify_fetched_cache ctx key id w item e0 p Hext Hget Hfetch).
    apply (cache.put_then_get id (PtrAPIKey p) (snd (cache.Get id (apiKeyCache (verifier w))))).
    rewrite <- Hback. apply surjective_pairing. }
  rewrite (Verify_cached ctx' key' id _ p Hext' Hhit).
  cbn [concluded calls].
  destruct (checkAPIKey_ran ctx' p id key' (looked_up id (world (Verify ctx key w))))
    as [Hp Hchk | r Hp Hoff Hchk | r e Hp Hon Hcmp Hchk | r Hp Hon Hcmp Hchk];
    rewrite Hchk; cbn [calls app]; (split; [reflexivity | now eexists]).
Qed.

(** X8. The value of every write to the last-used cache is an int64 unix
    time read during the call: not before the time at which the call was
    issued and not after the time at which it returned, on a clock that is
    never set back. *)
Theorem X8_last_used_time_is_read_during_the_call
    `{!time.Monotone K} ctx key w k x err :
  In (LastUsedPut k x err) (calls (Verify ctx key w)) ->
  exists n,
    x = Int64 n
    /\ (time.Unix (clock w) <= n <= time.Unix (clock (world (Verify ctx key w))))%Z.
Proof.
  destruct (Verify_runs ctx key w)
    as [e Hext Hrun | item why Hext Hget Hitem Hrun
       | item e0 q e Hext Hget Hfetch Hrun | before q w1 Hext Hreach Hrun];
    rewrite Hrun; cbn [calls world];
    try (intros Hin; cbn in Hin; intuition discriminate).
  destruct (reaches_check_frame _ _ _ _ _ _ Hreach) as (Hnoput & _ & _ & Hlater).
  destruct (checkAPIKey_ran ctx q (fst (model.ExtractAPIKeyID key)) key w1)
    as [Hp Hchk | r Hp Hoff Hchk | r e Hp Hon Hcmp Hchk | r Hp Hon Hcmp Hchk];
    rewrite Hchk; cbn [concluded calls world];
    intros [Hin | Hin]%in_app_or;
    try (now destruct (no_LastUsedPut _ Hnoput k x err));
    try (cbn in Hin; intuition discriminate).
  destruct Hin as [Heq | [Heq | []]]; [discriminate |].
  injection Heq as _ <- _. exists (stamp w1). split; [reflexivity |].
  unfold stamp. worlds.
  pose proof (later_le _ _ Hlater).
  pose proof (time.unix_elapse (clock w1)).
  pose proof (time.unix_elapse (time.elapse (clock w1))).
  lia.
Qed.

(** X9. [Verify] logs one warning for a write-back that failed, carrying
    the error, and nothing else: the log after the call is the log before
    followed by the warnings of the failed write-backs among its calls. *)
Theorem X9_log_holds_only_write_back_warnings ctx key w :
  logger (verifier (world (Verify ctx key w)))
  = (logger (verifier w) ++ write_back_warnings (calls (Verify ctx key w)))%list.
Proof.
  every_run ctx key w; worlds; cbn [write_back_warnings];
    rewrite ?app_nil_r; try reflexivity;
    destruct (fst (cache.Put _ _ _)); cbn [logger verifier];
    rewrite ?app_nil_r; reflexivity.
Qed.

Lemma ErrNotFound_names id cause : Contains (Error (ErrNotFound id cause)) id.
Proof. now exists "unable to find API key ", (" from datastore, " ++ Error cause ++ ""). Qed.

Lemma ErrDisabled_names id : Contains (Error (ErrDisabled id)) id.
Proof. now exists "the api key ", " was already disabled". Qed.

Lemma ErrInvalidSecret_names id cause : Contains (Error (ErrInvalidSecret id cause)) id.
Proof. now exists "invalid api key ", (": " ++ Error cause ++ ""). Qed.

Lemma ErrLastUsedWrite_names id cause : Contains (Error (ErrLastUsedWrite id cause)) id.
Proof.
  now exists "unable to update the time API key ", (" was last used, " ++ Error cause ++ "").
Qed.

(** X10. Once the identifier is extracted, every error [Verify] returns is
    of one of four kinds, built for that identifier, whose text contains
    the identifier.  Disabled is returned for a disabled record the
    identifier resolves to.  Each other kind wraps the very error a
    collaborator returned in a call of this run: NotFound the error of the
    datastore's [Get], InvalidSecret the error of the record's comparison,
    LastUsedWriteFailure the error of the last-used cache's [Put]. *)
Theorem X10_every_error_is_of_a_kind_and_names_the_identifier ctx key w err :
  snd (model.ExtractAPIKeyID key) = None ->
  result (Verify ctx key w) = Returned (None, Some err) ->
  ((err = ErrDisabled (fst (model.ExtractAPIKeyID key))
    /\ exists r,
         resolves ctx (verifier w) (fst (model.ExtractAPIKeyID key)) r
         /\ model.Disabled r = true)
   \/ (exists p cause,
         fst (Get ctx (fst (model.ExtractAPIKeyID key)) (apiKeyStore (verifier w)))
         = (p, Some cause)
         /\ In (StoreGet (fst (model.ExtractAPIKeyID key)) p (Some cause))
               (calls (Verify ctx key w))
         /\ err = ErrNotFound (fst (model.ExtractAPIKeyID key)) cause
         /\ Unwrap err = Some cause)
   \/ (exists r cause,
         model.CompareKey r key = Some cause
         /\ In (KeyCompare r key (Some cause)) (calls (Verify ctx key w))
         /\ err = ErrInvalidSecret (fst (model.ExtractAPIKeyID key)) cause
         /\ Unwrap err = Some cause)
   \/ (exists n cause,
         fst (cache.Put (fst (model.ExtractAPIKeyID key)) (Int64 n)
                (apiKeyLastUsedCache (verifier w)))
         = Some cause
         /\ In (LastUsedPut (fst (model.ExtractAPIKeyID key)) (Int64 n) (Some cause))
               (calls (Verify ctx key w))
         /\ err = ErrLastUsedWrite (fst (model.ExtractAPIKeyID key)) cause
         /\ Unwrap err = Some cause))
  /\ Contains (Error err) (fst (model.ExtractAPIKeyID key)).
Proof.
  intros Hnone Hres.
  destruct (Verify_last_used_state ctx key w) as (_ & Hleft).
  revert Hnone Hres Hleft.
  every_run ctx key w; intros Hnone;
    try (rewrite Hnone in Hext; discriminate Hext);
    try (destruct (fst (recorded _ _)) as [cause|] eqn:Hrec;
         [| subst; intros Hq; exfalso; clear - Hq; congruence]);
    cbv beta iota; intros Hq;
    try (exfalso; clear - Hq; congruence);
    match type of Hq with
    | Returned (_, Some ?a) = _ => assert (err = a) as -> by (clear - Hq; congruence)
    end; clear Hq; intros Hleft.
  - split; [| apply ErrNotFound_names].
    right. left. exists p, e. repeat split; [assumption |]. right. left. reflexivity.
  - split; [| apply ErrDisabled_names].
    left. split; [reflexivity |]. exists r. subst q. split; [now apply cached | assumption].
  - split; [| apply ErrInvalidSecret_names].
    right. right. left. exists r, e. repeat split; [assumption |]. right. left. reflexivity.
  - split; [| apply ErrLastUsedWrite_names].
    right. right. right. eexists _, cause.
    assert (In (LastUsedPut (fst (model.ExtractAPIKeyID key))
                  (Int64 (stamp (looked_up (fst (model.ExtractAPIKeyID key)) w)))
                  (Some cause))
               [CacheGet (fst (model.ExtractAPIKeyID key)) (PtrAPIKey q) None;
                KeyCompare r key None;
                LastUsedPut (fst (model.ExtractAPIKeyID key))
                  (Int64 (stamp (looked_up (fst (model.ExtractAPIKeyID key)) w)))
                  (Some cause)]) as Hin by (right; right; left; reflexivity).
    repeat split; [| exact Hin].
    now rewrite (Hleft _ _ _ Hin).
  - split; [| apply ErrDisabled_names].
    left. split; [reflexivity |]. exists r. subst q.
    split; [now apply (fetched ctx _ _ r item e0) | assumption].
  - split; [| apply ErrInvalidSecret_names].
    right. right. left. exists r, e. repeat split; [assumption |].
    right. right. right. left. reflexivity.
  - split; [| apply ErrLastUsedWrite_names].
    right. right. right. eexists _, cause.
    match goal with
    | Hl : forall k x err, In _ ?cs -> _ |- _ =>
        assert (In (LastUsedPut (fst (model.ExtractAPIKeyID key))
                      (Int64 (stamp (written_back (fst (model.ExtractAPIKeyID key)) q
                                       (fetched_from_store ctx (fst (model.ExtractAPIKeyID key))
                                          (looked_up (fst (model.ExtractAPIKeyID key)) w)))))
                      (Some cause)) cs) as Hin
          by (right; right; right; right; left; reflexivity)
    end.
    repeat split; [| exact Hin].
    now rewrite (Hleft _ _ _ Hin).
Qed.

(** X11. The four kinds of error are told apart by the error alone: errors
    of two different kinds are different, whatever the identifiers and the
    wrapped errors. *)
Theorem X11_failure_kinds_are_told_apart (id1 id2 : string) (c1 c2 : error) :
  ErrNotFound id1 c1 <> ErrDisabled id2
  /\ ErrNotFound id1 c1 <> ErrInvalidSecret id2 c2
  /\ ErrNotFound id1 c1 <> ErrLastUsedWrite id2 c2
  /\ ErrDisabled id1 <> ErrInvalidSecret id2 c2
  /\ ErrDisabled id1 <> ErrLastUsedWrite id2 c2
  /\ ErrInvalidSecret id1 c1 <> ErrLastUsedWrite id2 c2.
Proof. repeat split; discriminate. Qed.

(** X14. A call to [Verify] changes its collaborators only through the
    calls it makes: the last-used cache is as before unless it was
    written, and then as that one [Put] left it; the datastore is as before
    unless its [Get] was called, and then as that [Get] left it. *)
Theorem X14_collaborators_change_only_by_the_calls ctx key w :
  (existsb is_LastUsedPut (calls (Verify ctx key w)) = false ->
   apiKeyLastUsedCache (verifier (world (Verify ctx key w)))
   = apiKeyLastUsedCache (verifier w))
  /\ (forall k x err,
        In (LastUsedPut k x err) (calls (Verify ctx key w)) ->
        apiKeyLastUsedCache (verifier (world (Verify ctx key w)))
        = snd (cache.Put k x (apiKeyLastUsedCache (verifier w))))
  /\ (existsb is_StoreGet (calls (Verify ctx key w)) = false ->
      apiKeyStore (verifier (world (Verify ctx key w))) = apiKeyStore (verifier w))
  /\ (existsb is_StoreGet (calls (Verify ctx key w)) = true ->
      apiKeyStore (verifier (world (Verify ctx key w)))
      = snd (Get ctx (fst (model.ExtractAPIKeyID key)) (apiKeyStore (verifier w)))).
Proof.
  every_run ctx key w; unfold recorded, stamp; worlds; repeat split;
    try discriminate; try reflexivity;
    try (intros k x err Hin; cbn in Hin;
         repeat (destruct Hin as [Hin | Hin]; [try discriminate Hin |]);
         try contradiction; injection Hin as <- <- _);
    try (destruct (fst (cache.Put _ (PtrAPIKey _) _)));
    reflexivity.
Qed.

(** From two equal results, the equation between their errors. *)
Ltac same_error H :=
  match type of H with
  | Returned (_, Some ?a) = Returned (_, Some ?b) =>
      let Hab := fresh in
      assert (a = b) as Hab by congruence; revert Hab
  end.

(** C4. In every call the last-used cache is written exactly when a
    record passed the disabled check and the secret comparison in that
    call.  The write then is the call's last call and comes right after
    the comparison; a call that succeeds has made it; and a call that fails
    with MalformedKey, NotFound, Disabled or InvalidSecret has not.  The
    cache itself follows: without the write it is left as it was, with the
    write it is left as that [Put] of the identifier and the time left it,
    and after a call that succeeds it is what a [Put] that returned nil
    left. *)
Theorem C4_last_used_written_iff_validated ctx key w :
  (written (calls (Verify ctx key w))
   <-> exists r, In (KeyCompare r key None) (calls (Verify ctx key w))
                 /\ model.Disabled r = false)
  /\ (written (calls (Verify ctx key w)) ->
      exists before r n err,
        calls (Verify ctx key w)
        = (before ++ [KeyCompare r key None;
                      LastUsedPut (fst (model.ExtractAPIKeyID key)) (Int64 n) err])%list
        /\ model.Disabled r = false
        /\ model.CompareKey r key = None
        /\ existsb is_LastUsedPut before = false)
  /\ (forall p, result (Verify ctx key w) = Returned (p, None) ->
      exists n, In (LastUsedPut (fst (model.ExtractAPIKeyID key)) (Int64 n) None)
                   (calls (Verify ctx key w)))
  /\ (forall e, snd (model.ExtractAPIKeyID key) = Some e ->
      ~ written (calls (Verify ctx key w)))
  /\ (forall e, result (Verify ctx key w)
                = Returned (None, Some (ErrNotFound (fst (model.ExtractAPIKeyID key)) e)) ->
      ~ written (calls (Verify ctx key w)))
  /\ (result (Verify ctx key w)
      = Returned (None, Some (ErrDisabled (fst (model.ExtractAPIKeyID key)))) ->
      ~ written (calls (Verify ctx key w)))
  /\ (forall e, result (Verify ctx key w)
                = Returned (None, Some (ErrInvalidSecret (fst (model.ExtractAPIKeyID key)) e)) ->
      ~ written (calls (Verify ctx key w)))
  /\ (~ written (calls (Verify ctx key w)) ->
      apiKeyLastUsedCache (verifier (world (Verify ctx key w)))
      = apiKeyLastUsedCache (verifier w))
  /\ (written (calls (Verify ctx key w)) ->
      exists n err,
        In (LastUsedPut (fst (model.ExtractAPIKeyID key)) (Int64 n) err)
           (calls (Verify ctx key w))
        /\ cache.Put (fst (model.ExtractAPIKeyID key)) (Int64 n)
                     (apiKeyLastUsedCache (verifier w))
           = (err, apiKeyLastUsedCache (verifier (world (Verify ctx key w)))))
  /\ (forall p, result (Verify ctx key w) = Returned (p, None) ->
      exists n,
        cache.Put (fst (model.ExtractAPIKeyID key)) (Int64 n)
                  (apiKeyLastUsedCache (verifier w))
        = (None, apiKeyLastUsedCache (verifier (world (Verify ctx key w))))).
Proof.
  destruct (Verify_last_used_state ctx key w) as (Hkept & Hleft).
  unfold written.
  destruct (Verify_trace ctx key w)
    as [(Hnoput & Hnocmp & Hfail)
       | (before & r & n & err & Hcalls & Hnoput & Hnocmp & Hon & Hcmp & Hres)].
  - rewrite Hnoput in Hkept |- *. repeat split; try discriminate.
    + intros (r & Hin & _). now destruct (Hnocmp r).
    + intros p Hok. now destruct (Hfail p).
    + intros _. now apply Hkept.
    + intros p Hok. now destruct (Hfail p).
  - assert (existsb is_LastUsedPut (calls (Verify ctx key w)) = true) as Hput.
    { rewrite Hcalls, existsb_app. cbn. apply orb_true_r. }
    assert (In (LastUsedPut (fst (model.ExtractAPIKeyID key)) (Int64 n) err)
               (calls (Verify ctx key w))) as Hin.
    { rewrite Hcalls. apply in_or_app. right. right. left. reflexivity. }
    rewrite Hput. repeat split.
    + intros _. exists r. split; [| assumption].
      rewrite Hcalls. apply in_or_app. right. left. reflexivity.
    + intros _. now exists before, r, n, err.
    + intros p Hok. exists n.
      rewrite Hres in Hok. destruct err; [discriminate | exact Hin].
    + intros e Hext _. revert Hput.
      now rewrite (Verify_malformed ctx key w e Hext).
    + intros e He _. rewrite Hres in He. destruct err as [e'|]; [| discriminate].
      same_error He. apply ErrLastUsedWrite_not_ErrNotFound.
    + intros He _. rewrite Hres in He. destruct err as [e'|]; [| discriminate].
      same_error He. apply ErrLastUsedWrite_not_ErrDisabled.
    + intros e He _. rewrite Hres in He. destruct err as [e'|]; [| discriminate].
      same_error He. apply ErrLastUsedWrite_not_ErrInvalidSecret.
    + intros Hnot. now destruct Hnot.
    + intros _. exists n, err. split; [exact Hin | now apply Hleft].
    + intros p Hok. exists n.
      rewrite Hres in Hok. destruct err; [discriminate |]. now apply Hleft.
Qed.

End VerifyMore.

(** ** What the snapshot reader's [Get] returns *)

Section FileStoreMore.

Context {Ctx Object T Snapshot : Type}.
Context {store : filestore.Store Ctx Object T}.
Context {decoder : json.Unmarshaler Snapshot}.

(** X12. [Get] returns a snapshot or an error, never both and never
    neither.  It returns a snapshot exactly when the backend and the
    decoder both succeed; an error of the backend is returned as it is,
    whatever the decoder would make of the object, and otherwise an error
    of the decoder is. *)
Theorem X12_Get_returns_snapshot_or_error
    (ctx : Ctx) (applicationID : string)
    (f : applicationlivestatestore.applicationLiveStateFileStore T) :
  let got :=
    filestore.GetObject ctx
      (applicationlivestatestore.applicationLiveStatePath applicationID)
      (applicationlivestatestore.backend f) in
  let decoded := json.Unmarshal (filestore.Content (fst (fst got))) json.zero in
  let res :=
    applicationlivestatestore.results
      (applicationlivestatestore.Get (Snapshot := Snapshot) ctx applicationID f) in
  (fst res <> None <-> snd res = None)
  /\ (snd res = None <-> snd (fst got) = None /\ snd decoded = None)
  /\ (forall e, snd (fst got) = Some e -> res = (None, Some e))
  /\ (forall e, snd (fst got) = None -> snd decoded = Some e -> res = (None, Some e))
  /\ (snd (fst got) = None -> snd decoded = None -> res = (Some (fst decoded), None)).
Proof.
  intros got decoded res. subst res. cbn [applicationlivestatestore.results
    applicationlivestatestore.Get]. fold got. fold decoded.
  destruct (snd (fst got)) as [e1|]; [| destruct (snd decoded) as [e2|]];
    cbn [fst snd]; repeat split; try congruence; try tauto.
  all: try (intros [? ?]; congruence).
Qed.

End FileStoreMore.

(** ** The constructor of the verifier *)

Module memorycache.

(** [memorycache.NewTTLCache(ctx, ttl, evictionInterval)], with the two
    durations in nanoseconds. *)
Class TTLCache (Ctx C : Type) : Type := {
  NewTTLCache : Ctx -> Z -> Z -> C;
}.

End memorycache.

Module rediscache.

(** [rediscache.NewHashCache(redis, hashKey)]. *)
Class HashCache (Redis D : Type) : Type := {
  NewHashCache : Redis -> string -> D;
}.

End rediscache.

(** [time.Minute], a [time.Duration]: an int64 number of nanoseconds. *)
Definition time_Minute : Z := 60 * (1000 * (1000 * (1000 * 1))).

Definition apiKeyLastUsedCacheHashKey : string := "HASHKEY:PIPED:API_KEYS".

Section Constructor.

Context {APIKey Ctx C S D K Redis : Type}.
Context {pkg : model.Package APIKey}.
Context {localCache : cache.Cache APIKey C}.
Context {getter : apiKeyGetter APIKey Ctx S}.
Context {hashCache : cache.Cache APIKey D}.
Context {wallClock : time.Clock K}.
Context {ttlCache : memorycache.TTLCache Ctx C}.
Context {redisHash : rediscache.HashCache Redis D}.

Definition NewVerifier (ctx : Ctx) (store : S) (rd : Redis) (log : zap.Logger)
  : Verifier C S D :=
  {| apiKeyCache := memorycache.NewTTLCache ctx (5 * time_Minute) time_Minute;
     apiKeyStore := store;
     apiKeyLastUsedCache := rediscache.NewHashCache rd apiKeyLastUsedCacheHashKey;
     logger := log |}.

(** X13. A verifier built by [NewVerifier] has a local cache that keeps
    entries for five minutes and is swept every minute, both within int64
    nanoseconds, and records last use in the hash [HASHKEY:PIPED:API_KEYS]
    of the Redis it was given, whatever its other arguments.  When a new
    cache has no entries, the first [Verify] of such a verifier, for a key
    whose identifier can be extracted, goes to the datastore it was built
    with. *)
Theorem X13_new_verifier_starts_cold
    (ctx0 ctx : Ctx) (store : S) (rd : Redis) (log : zap.Logger) (k : K)
    (key id : string) :
  (forall c ttl every key',
      snd (fst (cache.Get key' (memorycache.NewTTLCache c ttl every))) <> None) ->
  model.ExtractAPIKeyID key = (id, None) ->
  let w := {| verifier := NewVerifier ctx0 store rd log; clock := k |} in
  (exists item e0 rest,
      calls (Verify ctx key w)
      = CacheGet id item (Some e0)
        :: StoreGet id (fst (fst (Get ctx id store))) (snd (fst (Get ctx id store)))
        :: rest)
  /\ (forall ctx1 store1 log1,
        apiKeyLastUsedCache (NewVerifier ctx1 store1 rd log1)
        = rediscache.NewHashCache rd "HASHKEY:PIPED:API_KEYS")
  /\ apiKeyCache (NewVerifier ctx0 store rd log)
     = memorycache.NewTTLCache ctx0 300000000000 60000000000
  /\ (0 < 60000000000 < 300000000000)%Z
  /\ (300000000000 < 2 ^ 63)%Z.
Proof.
  intros Hfresh Hext w. repeat split; try lia.
  destruct (fst (cache.Get id (apiKeyCache (verifier w)))) as [item [e0|]] eqn:Hget.
  2:{ destruct (Hfresh ctx0 (5 * time_Minute)%Z time_Minute id).
      change (memorycache.NewTTLCache ctx0 (5 * time_Minute) time_Minute)
        with (apiKeyCache (verifier w)).
      now rewrite Hget. }
  exists item, e0.
  destruct (fst (Get ctx id (apiKeyStore (verifier w)))) as [p [e|]] eqn:Hfetch.
  - rewrite (Verify_not_found ctx key id w item e0 p e Hext Hget Hfetch).
    exists []. cbn [calls]. change store with (apiKeyStore (verifier w)).
    now rewrite Hfetch.
  - rewrite (Verify_fetched ctx key id w item e0 p Hext Hget Hfetch).
    eexists. cbn [concluded calls app]. change store with (apiKeyStore (verifier w)).
    now rewrite Hfetch.
Qed.

End Constructor.

(** ** The further properties at concrete inputs *)

#[global] Instance fake_ttl_cache : memorycache.TTLCache unit fake.Table := {|
  memorycache.NewTTLCache := fun _ _ _ => fake.empty_table;
|}.

(** A Redis holding named hashes. *)
Definition fake_Redis : Type := list (string * list (string * any fake.APIKey)).

#[global] Instance fake_redis_hash : rediscache.HashCache fake_Redis fake.Hash := {|
  rediscache.NewHashCache := fun rd name =>
    {| fake.fields := match fake.lookup name rd with
                      | Some fields => fields
                      | None => []
                      end;
       fake.hset_err := None |};
|}.

(** A verifier whose local cache is a hash, which shows what it accepted:
    nothing cached, the datastore has [fake.k1]. *)
Definition lawful_cold : apikeyverifier.World fake.Hash fake.Datastore fake.Hash Z :=
  {| verifier := {| apiKeyCache := fake.empty_hash;
                    apiKeyStore := [fake.k1];
                    apiKeyLastUsedCache := fake.empty_hash;
                    logger := [] |};
     clock := 1000%Z |}.

Lemma X1_witness :
  snd (model.ExtractAPIKeyID (APIKey := fake.APIKey) "k1.s3cr3t") = None
  /\ exists r,
       Some fake.k1 = Some r
       /\ resolves tt (verifier fake.cold) "k1" r
       /\ model.Disabled r = false
       /\ model.CompareKey r "k1.s3cr3t" = None
       /\ exists n, In (LastUsedPut "k1" (Int64 n) None)
                       (calls (Verify tt "k1.s3cr3t" fake.cold)).
Proof.
  refine (X1_success_only_for_valid_keys tt "k1.s3cr3t" fake.cold (Some fake.k1) _).
  reflexivity.
Defined.

Lemma X4_witness :
  existsb is_StoreGet (calls (Verify tt "k1.s3cr3t" fake.warm)) = false
  /\ existsb is_CachePut (calls (Verify tt "k1.s3cr3t" fake.warm)) = false
  /\ apiKeyStore (verifier (world (Verify tt "k1.s3cr3t" fake.warm))) = [fake.k1]
  /\ apiKeyCache (verifier (world (Verify tt "k1.s3cr3t" fake.warm)))
     = apiKeyCache (verifier fake.warm)
  /\ logger (verifier (world (Verify tt "k1.s3cr3t" fake.warm))) = [].
Proof.
  refine (X4_hit_spares_the_datastore tt "k1.s3cr3t" "k1" fake.warm _ _); reflexivity.
Defined.

Lemma X6_witness :
  In (CachePut "k1" (PtrAPIKey (Some fake.k1_disabled)) None)
     (calls (Verify tt "k1.s3cr3t" fake.cold_disabled))
  /\ apiKeyCache (verifier (world (Verify tt "k1.s3cr3t" fake.cold_disabled)))
     = {| fake.rows := [("k1", PtrAPIKey (Some fake.k1_disabled))];
          fake.get_err := None;
          fake.put_err := None |}.
Proof.
  refine (X6_fetched_record_is_cached_unvalidated tt "k1.s3cr3t" "k1" fake.cold_disabled
            Nil (errors.New "not found") (Some fake.k1_disabled) _ _ _); reflexivity.
Defined.

Lemma X7_witness :
  existsb is_StoreGet
    (calls (Verify tt "k1.s3cr3t" (world (Verify tt "k1.wrong" lawful_cold)))) = false
  /\ exists rest,
       calls (Verify tt "k1.s3cr3t" (world (Verify tt "k1.wrong" lawful_cold)))
       = CacheGet "k1" (PtrAPIKey (Some fake.k1)) None :: rest
       /\ existsb is_CacheGet rest = false.
Proof.
  refine (X7_second_call_is_served_from_cache tt tt "k1.wrong" "k1.s3cr3t" "k1"
            lawful_cold Nil (errors.New "not found") (Some fake.k1) _ _ _ _ _);
    reflexivity.
Defined.

Lemma X8_witness :
  exists n,
    Int64 (APIKey := fake.APIKey) 1004 = Int64 n
    /\ (1000 <= n <= 1005)%Z.
Proof.
  refine (X8_last_used_time_is_read_during_the_call tt "k1.s3cr3t" fake.cold
            "k1" (Int64 1004) None _).
  vm_compute. find_call.
Defined.

Lemma X10_witness :
  let id := fst (model.ExtractAPIKeyID (APIKey := fake.APIKey) "k1.wrong") in
  let err := ErrInvalidSecret "k1" (errors.New "wrong api key") in
  ((err = ErrDisabled id
    /\ exists r, resolves tt (verifier fake.cold) id r /\ model.Disabled r = true)
   \/ (exists p cause,
         fst (Get tt id (apiKeyStore (verifier fake.cold))) = (p, Some cause)
         /\ In (StoreGet id p (Some cause)) (calls (Verify tt "k1.wrong" fake.cold))
         /\ err = ErrNotFound id cause
         /\ Unwrap err = Some cause)
   \/ (exists r cause,
         model.CompareKey r "k1.wrong" = Some cause
         /\ In (KeyCompare r "k1.wrong" (Some cause)) (calls (Verify tt "k1.wrong" fake.cold))
         /\ err = ErrInvalidSecret id cause
         /\ Unwrap err = Some cause)
   \/ (exists n cause,
         fst (cache.Put id (Int64 n) (apiKeyLastUsedCache (verifier fake.cold)))
         = Some cause
         /\ In (LastUsedPut id (Int64 n) (Some cause))
               (calls (Verify tt "k1.wrong" fake.cold))
         /\ err = ErrLastUsedWrite id cause
         /\ Unwrap err = Some cause))
  /\ Contains (Error err) id.
Proof.
  refine (X10_every_error_is_of_a_kind_and_names_the_identifier
            tt "k1.wrong" fake.cold
            (ErrInvalidSecret "k1" (errors.New "wrong api key")) _ _);
    vm_compute; reflexivity.
Defined.

Lemma X13_witness :
  (exists item e0 rest,
      calls (Verify tt "k1.s3cr3t"
               {| verifier := NewVerifier tt [fake.k1] ([] : fake_Redis) [];
                  clock := 1000%Z |})
      = CacheGet "k1" item (Some e0) :: StoreGet "k1" (Some fake.k1) None :: rest)
  /\ (forall (ctx1 : unit) (store1 : fake.Datastore) log1,
        apiKeyLastUsedCache (NewVerifier (C := fake.Table) ctx1 store1 ([] : fake_Redis) log1)
        = rediscache.NewHashCache [] "HASHKEY:PIPED:API_KEYS")
  /\ apiKeyCache (NewVerifier tt [fake.k1] ([] : fake_Redis) [])
     = memorycache.NewTTLCache tt 300000000000 60000000000
  /\ (0 < 60000000000 < 300000000000)%Z
  /\ (300000000000 < 2 ^ 63)%Z.
Proof.
  refine (X13_new_verifier_starts_cold (APIKey := fake.APIKey) (D := fake.Hash)
            tt tt [fake.k1] ([] : fake_Redis) [] 1000%Z "k1.s3cr3t" "k1" _ _).
  - intros c ttl every key'. discriminate.
  - reflexivity.
Defined.
